(** * zfsd event routing: a shallow embedding of [zfsd_event.cc]

    The file embeds the two event classes of [head/cddl/sbin/zfsd/zfsd_event.cc]
    ([DevfsEvent] and [ZfsEvent]) as programs in a monad of state, trace
    and [ZfsdException].  Every interaction with a collaborator that lives outside that file
    (libzfs, the case registry, the daemon, syslog, the device node) is
    answered by an environment and recorded, with its answer, in a trace. *)

From Stdlib Require Import String Ascii ZArith NArith List Bool DecimalString.
From stdpp Require Import base gmap strings.

Import ListNotations.
Local Open Scope string_scope.
Local Open Scope Z_scope.

(** ** std::string *)

(** [s.find(pat)]: position of the first occurrence of [pat] in [s];
    [None] stands for [std::string::npos]. *)
Definition find (s pat : string) : option nat := String.index 0 pat s.

(** The test [s.find(pat) == 0] of the source. *)
Definition find_is_0 (s pat : string) : bool :=
  match find s pat with
  | Some O => true
  | _ => false
  end.

(** The newline character of the C string literals. *)
Definition nl : string := String "010"%char EmptyString.

(** ** <sys/fs/zfs.h>, <sys/types.h>, <syslog.h>, <paths.h>, <fcntl.h> *)

(** Modelled from the spec: the [vdev_state_t] enumeration of
    [sys/fs/zfs.h] (not under src/), "ordered so that healthy is the
    maximum". *)
Inductive vdev_state : Type :=
| VDEV_STATE_UNKNOWN
| VDEV_STATE_CLOSED
| VDEV_STATE_OFFLINE
| VDEV_STATE_REMOVED
| VDEV_STATE_CANT_OPEN
| VDEV_STATE_FAULTED
| VDEV_STATE_DEGRADED
| VDEV_STATE_HEALTHY.

Definition vdev_state_code (s : vdev_state) : Z :=
  match s with
  | VDEV_STATE_UNKNOWN => 0
  | VDEV_STATE_CLOSED => 1
  | VDEV_STATE_OFFLINE => 2
  | VDEV_STATE_REMOVED => 3
  | VDEV_STATE_CANT_OPEN => 4
  | VDEV_STATE_FAULTED => 5
  | VDEV_STATE_DEGRADED => 6
  | VDEV_STATE_HEALTHY => 7
  end.

(** [a == b], [a != b] and [a < b] on the enumeration. *)
Definition vdev_state_eqb (a b : vdev_state) : bool :=
  vdev_state_code a =? vdev_state_code b.
Definition vdev_state_neb (a b : vdev_state) : bool := negb (vdev_state_eqb a b).
Definition vdev_state_ltb (a b : vdev_state) : bool :=
  vdev_state_code a <? vdev_state_code b.

Inductive vdev_aux : Type := VDEV_AUX_NONE.

Inductive boolean_t : Type := B_FALSE | B_TRUE.

Definition boolean_eqb (a b : boolean_t) : bool :=
  match a, b with
  | B_FALSE, B_FALSE | B_TRUE, B_TRUE => true
  | _, _ => false
  end.

Inductive priority : Type := LOG_ERR | LOG_INFO.

Definition _PATH_DEV : string := "/dev/".
Definition O_RDONLY : Z := 0.

(** ** devdctl: events, guids *)

(** A pool or vdev identifier: a 64-bit value. *)
Definition Guid : Type := N.
Bind Scope N_scope with Guid.

(** Modelled from the spec: [DevdCtl::Event] (libdevdctl, not under src/),
    "a mapping from string tag to string value (keys unique)" plus the
    original raw text.  [Value] of a tag that is not present is the empty
    string. *)
Record Event : Type := mkEvent {
  nvPairs : gmap string string;
  eventString : string
}.

Definition Contains (e : Event) (varName : string) : bool :=
  match nvPairs e !! varName with
  | Some _ => true
  | None => false
  end.

Definition Value (e : Event) (varName : string) : string :=
  match nvPairs e !! varName with
  | Some v => v
  | None => ""
  end.

(** The accessors of the devdctl event classes that the daemon calls and that
    only read the event record. *)
Class Devdctl : Type := {
  (** [DevfsEvent::IsDiskDev()] *)
  IsDiskDev : Event -> bool;
  (** [DevfsEvent::IsWholeDev()] *)
  IsWholeDev : Event -> bool;
  (** [DevfsEvent::DevName(string &)]: return value and out-parameter *)
  DevName : Event -> bool * string;
  (** [DevfsEvent::DevPath(string &)]: return value and out-parameter *)
  DevPath : Event -> bool * string;
  (** [Guid::Guid(const string &)] *)
  Guid_of_string : string -> Guid;
  (** [operator<<(ostream &, Guid)] *)
  Guid_to_string : Guid -> string
}.

(** ** zfsd collaborators *)

(** [ZfsdException]: the message is reached through [GetString()], which
    returns a reference the handlers write through. *)
Record ZfsdException : Type := mkZfsdException { GetString : string }.

(** [exp.GetString().insert(0, context)] *)
Definition insert_context (context : string) (exp : ZfsdException) : ZfsdException :=
  mkZfsdException (context ++ GetString exp).

(** Modelled from the spec: a [CaseFile *] as the registry hands it out
    (case_file.h is not under src/): the identity of the case and the values
    of the read accessors the event code calls on it.  Every accessor call of
    the source comes directly after the lookup, before anything that could
    change the case. *)
Record CaseFile : Type := mkCaseFile {
  case_id : N;
  PoolGUIDString : string;
  VdevGUIDString : string;
  VdevState : vdev_state
}.

(** libzfs handles and the [Vdev] wrapper class (vdev.h): types and the
    accessors that read the immutable configuration snapshot a [Vdev] was
    built from.  The constructor from a label is the step the source guards
    with [try]: [Vdev_of_label] tells whether it yields the object ([inr])
    or throws ([inl]). *)
Class Libzfs : Type := {
  nvlist_t : Type;
  zpool_handle_t : Type;
  Vdev : Type;
  (** [Vdev::Vdev(nvlist_t *vdevConfig)] *)
  Vdev_of_label : nvlist_t -> ZfsdException + Vdev;
  (** [Vdev::Vdev(zpool_handle_t *pool, nvlist_t *config)] *)
  Vdev_of_pool : zpool_handle_t -> nvlist_t -> Vdev;
  Vdev_GUID : Vdev -> Guid;
  Vdev_PoolGUID : Vdev -> Guid;
  Vdev_State : Vdev -> vdev_state;
  Vdev_IsSpare : Vdev -> bool;
  Vdev_Path : Vdev -> string;
  Vdev_Parent : Vdev -> Vdev;
  Vdev_Children : Vdev -> list Vdev;
  zpool_get_name : zpool_handle_t -> string;
  zpool_state_to_name : vdev_state -> vdev_aux -> string
}.

(** ** Observable interactions

    One constructor per call that leaves [zfsd_event.cc]; a query carries its
    answer. *)
Inductive Obs `{Libzfs} : Type :=
| O_syslog (prio : priority) (fmt : string) (args : list string)
| O_Event_Log (e : Event) (prio : priority)
| O_Exception_Log (exp : ZfsdException)
| O_open (path : string) (flags : Z) (fd : Z)
| O_close (fd : Z)
| O_free (poolName : string)
| O_nvlist_free (nvl : nvlist_t)
| O_fdevname (fd : Z) (name : string)
| O_zpool_in_use (fd : Z) (ret : Z) (poolName : option string) (b_inuse : boolean_t)
| O_zpool_read_label (fd : Z) (ret : Z) (devLabel : option nvlist_t)
| O_PhysicalPath (e : Event) (ok : bool) (path : string)
| O_CaseFile_Find (pool vdev : Guid) (found : option CaseFile)
| O_CaseFile_Find_physPath (physPath : string) (found : option CaseFile)
| O_CaseFile_ReEvaluate_dev (cf : CaseFile) (devPath physPath : string)
                            (vdev : option Vdev) (consumed : bool)
| O_CaseFile_ReEvaluate (cf : CaseFile) (e : Event) (consumed : bool)
| O_CaseFile_ReEvaluateByGuid (pool : Guid) (e : Event)
| O_CaseFile_Create (vdev : Vdev) (cf : CaseFile)
| O_ReplayUnconsumedEvents (discard : bool)
| O_RequestSystemRescan
| O_ZpoolList_ByGUID (pool : Guid) (zpl : list zpool_handle_t)
| O_VdevIterator_Find (hdl : zpool_handle_t) (vdev : Guid) (config : option nvlist_t)
| O_VdevIterator_vdevs (hdl : zpool_handle_t) (vdevs : list Vdev)
| O_zpool_vdev_detach (hdl : zpool_handle_t) (path : string).

(** The environment: how the world answers each query, and how it moves on
    after each interaction.  A call to a collaborator returns; the one
    operation that can leave a [ZfsdException] in flight is the construction
    of a [Vdev] from a label, which is where the source places its [try]
    blocks. *)
Record Env `{Libzfs} (World : Type) : Type := mkEnv {
  next : Obs -> World -> World;
  env_open : World -> string -> Z -> Z;
  env_fdevname : World -> Z -> string;
  env_zpool_in_use : World -> Z -> Z * option string * boolean_t;
  env_zpool_read_label : World -> Z -> Z * option nvlist_t;
  env_PhysicalPath : World -> Event -> bool * string;
  env_Find : World -> Guid -> Guid -> option CaseFile;
  env_Find_physPath : World -> string -> option CaseFile;
  env_ReEvaluate_dev : World -> CaseFile -> string -> string -> option Vdev -> bool;
  env_ReEvaluate : World -> CaseFile -> Event -> bool;
  env_Create : World -> Vdev -> CaseFile;
  env_ZpoolByGUID : World -> Guid -> list zpool_handle_t;
  env_VdevIterator_Find : World -> zpool_handle_t -> Guid -> option nvlist_t;
  env_VdevIterator_vdevs : World -> zpool_handle_t -> list Vdev
}.

Arguments next {_ _} _ _ _.
Arguments env_open {_ _} _ _ _ _.
Arguments env_fdevname {_ _} _ _ _.
Arguments env_zpool_in_use {_ _} _ _ _.
Arguments env_zpool_read_label {_ _} _ _ _.
Arguments env_PhysicalPath {_ _} _ _ _.
Arguments env_Find {_ _} _ _ _ _.
Arguments env_Find_physPath {_ _} _ _ _.
Arguments env_ReEvaluate_dev {_ _} _ _ _ _ _ _.
Arguments env_ReEvaluate {_ _} _ _ _ _.
Arguments env_Create {_ _} _ _ _.
Arguments env_ZpoolByGUID {_ _} _ _ _.
Arguments env_VdevIterator_Find {_ _} _ _ _ _.
Arguments env_VdevIterator_vdevs {_ _} _ _ _.

(** ** The monad of the embedding *)

(** A run ends with a returned value ([inr]) or with a [ZfsdException] in
    flight ([inl]), in a new world, having produced a trace. *)
Record Outcome `{Libzfs} (World A : Type) : Type := mkOutcome {
  value : ZfsdException + A;
  world : World;
  trace : list Obs
}.

Arguments mkOutcome {_ _ _} _ _ _.
Arguments value {_ _ _} _.
Arguments world {_ _ _} _.
Arguments trace {_ _ _} _.

Definition M `{Libzfs} (World : Type) (A : Type) : Type := World -> Outcome World A.

Definition ret `{Libzfs} {World A} (a : A) : M World A :=
  fun w => mkOutcome (inr a) w [].

(** [throw]: the statement is left with the exception in flight. *)
Definition throw `{Libzfs} {World A} (exp : ZfsdException) : M World A :=
  fun w => mkOutcome (inl exp) w [].

Definition bind `{Libzfs} {World A B} (m : M World A) (f : A -> M World B)
    : M World B :=
  fun w =>
    let r := m w in
    match value r with
    | inr a =>
        let r' := f a (world r) in
        mkOutcome (value r') (world r') (trace r ++ trace r')
    | inl exp => mkOutcome (inl exp) (world r) (trace r)
    end.

(** [try { body } catch (ZfsdException &exp) { handler }] *)
Definition try_catch `{Libzfs} {World A} (body : M World A)
    (handler : ZfsdException -> M World A) : M World A :=
  fun w =>
    let r := body w in
    match value r with
    | inr a => r
    | inl exp =>
        let r' := handler exp (world r) in
        mkOutcome (value r') (world r') (trace r ++ trace r')
    end.

Declare Scope zfsd_scope.
Delimit Scope zfsd_scope with zfsd.
Notation "x ← y ; z" := (bind y (fun x => z))
  (at level 20, y at level 100, z at level 200, only parsing) : zfsd_scope.
Notation "' x ← y ; z" := (bind y (fun x => z))
  (at level 20, x pattern, y at level 100, z at level 200, only parsing) : zfsd_scope.
Notation "x ;; z" := (bind x (fun _ => z))
  (at level 100, z at level 200, only parsing, right associativity) : zfsd_scope.
Local Open Scope zfsd_scope.

Section Primitives.
Context `{Libzfs} {World : Type} (env : Env World).

(** The answer the world [w] gives to the query [q]. *)
Definition answer_in {A} (q : World -> A) (w : World) : A := q w.

(** A call whose answer the code uses. *)
Definition ask {A} (q : World -> A) (obs : A -> Obs) : M World A :=
  fun w =>
    let a := answer_in q w in
    mkOutcome (inr a) (next env (obs a) w) [obs a].

(** A call made for its effect only. *)
Definition tell (o : Obs) : M World unit :=
  fun w => mkOutcome (inr tt) (next env o w) [o].

Definition syslog (prio : priority) (fmt : string) (args : list string) :=
  tell (O_syslog prio fmt args).
Definition Event_Log (e : Event) (prio : priority) := tell (O_Event_Log e prio).
Definition Exception_Log (exp : ZfsdException) := tell (O_Exception_Log exp).
Definition open (path : string) (flags : Z) : M World Z :=
  ask (fun w => env_open env w path flags) (O_open path flags).
Definition close (fd : Z) := tell (O_close fd).
Definition free (poolName : string) := tell (O_free poolName).
Definition nvlist_free (nvl : nvlist_t) := tell (O_nvlist_free nvl).
Definition fdevname (fd : Z) : M World string :=
  ask (fun w => env_fdevname env w fd) (O_fdevname fd).
Definition zpool_in_use (fd : Z) : M World (Z * option string * boolean_t) :=
  ask (fun w => env_zpool_in_use env w fd)
      (fun a => O_zpool_in_use fd (fst (fst a)) (snd (fst a)) (snd a)).
Definition zpool_read_label (fd : Z) : M World (Z * option nvlist_t) :=
  ask (fun w => env_zpool_read_label env w fd)
      (fun a => O_zpool_read_label fd (fst a) (snd a)).
Definition PhysicalPath (e : Event) : M World (bool * string) :=
  ask (fun w => env_PhysicalPath env w e)
      (fun a => O_PhysicalPath e (fst a) (snd a)).
Definition CaseFile_Find (pool vdev : Guid) : M World (option CaseFile) :=
  ask (fun w => env_Find env w pool vdev) (O_CaseFile_Find pool vdev).
Definition CaseFile_Find_physPath (physPath : string) : M World (option CaseFile) :=
  ask (fun w => env_Find_physPath env w physPath) (O_CaseFile_Find_physPath physPath).
Definition CaseFile_ReEvaluate_dev (cf : CaseFile) (devPath physPath : string)
    (vdev : option Vdev) : M World bool :=
  ask (fun w => env_ReEvaluate_dev env w cf devPath physPath vdev)
      (O_CaseFile_ReEvaluate_dev cf devPath physPath vdev).
Definition CaseFile_ReEvaluate (cf : CaseFile) (e : Event) : M World bool :=
  ask (fun w => env_ReEvaluate env w cf e) (O_CaseFile_ReEvaluate cf e).
Definition CaseFile_ReEvaluateByGuid (pool : Guid) (e : Event) :=
  tell (O_CaseFile_ReEvaluateByGuid pool e).
Definition CaseFile_Create (vdev : Vdev) : M World CaseFile :=
  ask (fun w => env_Create env w vdev) (O_CaseFile_Create vdev).
Definition ReplayUnconsumedEvents (discard : bool) :=
  tell (O_ReplayUnconsumedEvents discard).
Definition RequestSystemRescan := tell O_RequestSystemRescan.
Definition ZpoolList_ByGUID (pool : Guid) : M World (list zpool_handle_t) :=
  ask (fun w => env_ZpoolByGUID env w pool) (O_ZpoolList_ByGUID pool).
Definition VdevIterator_Find (hdl : zpool_handle_t) (vdev : Guid)
    : M World (option nvlist_t) :=
  ask (fun w => env_VdevIterator_Find env w hdl vdev) (O_VdevIterator_Find hdl vdev).
Definition VdevIterator_vdevs (hdl : zpool_handle_t) : M World (list Vdev) :=
  ask (fun w => env_VdevIterator_vdevs env w hdl) (O_VdevIterator_vdevs hdl).
Definition zpool_vdev_detach (hdl : zpool_handle_t) (path : string) :=
  tell (O_zpool_vdev_detach hdl path).

(** [Vdev vdev(label)]: the constructor returns the object or throws. *)
Definition Vdev_new (label : nvlist_t) : M World Vdev :=
  match Vdev_of_label label with
  | inr vdev => ret vdev
  | inl exp => throw exp
  end.
End Primitives.

(** ** DevfsEvent *)

Module DevfsEvent.
Section DevfsEvent.
Context `{Libzfs} `{Devdctl} {World : Type} (env : Env World).

(** [DevfsEvent::ReadLabel(int devFd, bool &inUse, bool &degraded)]: the
    result is the returned label ([None] is [NULL]) with the two
    out-parameters. *)
Definition ReadLabel (devFd : Z) : M World (option nvlist_t * bool * bool) :=
  '(rc, poolName, b_inuse) ← zpool_in_use env devFd;
  if rc =? 0 then
    let inUse := boolean_eqb b_inuse B_TRUE in
    match poolName with Some p => free env p | None => ret tt end;;
    '(rl, devLabel) ← zpool_read_label env devFd;
    match rl =? 0, devLabel with
    | true, Some label =>
        try_catch
          (vdev ← Vdev_new label;
           let degraded := vdev_state_neb (Vdev_State vdev) VDEV_STATE_HEALTHY in
           ret (Some label, inUse, degraded))
          (fun exp =>
             devName ← fdevname env devFd;
             let devPath := _PATH_DEV ++ devName in
             let context := "DevfsEvent::ReadLabel: " ++ devPath ++ ": " in
             Exception_Log env (insert_context context exp);;
             ret (None, inUse, false))
    | _, _ => ret (None, inUse, false)
    end
  else ret (None, false, false).

(** [DevfsEvent::OnlineByLabel(devPath, physPath, devConfig)] *)
Definition OnlineByLabel (devPath physPath : string) (devConfig : nvlist_t)
    : M World bool :=
  try_catch
    (syslog env LOG_INFO ("Interrogating VDEV label for %s" ++ nl) [devPath];;
     vdev ← Vdev_new devConfig;
     caseFile ← CaseFile_Find env (Vdev_PoolGUID vdev) (Vdev_GUID vdev);
     match caseFile with
     | Some cf => CaseFile_ReEvaluate_dev env cf devPath physPath (Some vdev)
     | None => ret false
     end)
    (fun exp =>
       let context := "DevfsEvent::OnlineByLabel: " ++ devPath ++ ": " in
       Exception_Log env (insert_context context exp);;
       ret false).

(** [DevfsEvent::Process()] *)
Definition Process (e : Event) : M World bool :=
  if negb (String.eqb (Value e "type") "CREATE") || negb (IsDiskDev e) then
    ret false
  else
    Event_Log env e LOG_INFO;;
    let '(haveDevPath, devPath) := DevPath e in
    if negb haveDevPath then ret false else
    devFd ← open env devPath O_RDONLY;
    if devFd =? -1 then ret false else
    '(devLabel, inUse, degraded) ← ReadLabel devFd;
    '(havePhysPath, physPath) ← PhysicalPath env e;
    let devName := snd (DevName e) in
    close env devFd;;
    match inUse, devLabel with
    | true, Some label =>
        OnlineByLabel devPath physPath label;; ret tt
    | _, _ =>
        if degraded then
          syslog env LOG_INFO
            ("%s is marked degraded.  Ignoring as a replace by physical path candidate."
             ++ nl) [devName]
        else if havePhysPath && IsWholeDev e then
          caseFile ← CaseFile_Find_physPath env physPath;
          match caseFile with
          | Some cf =>
              syslog env LOG_INFO ("Found CaseFile(%s:%s:%s) - ReEvaluating" ++ nl)
                [PoolGUIDString cf; VdevGUIDString cf;
                 zpool_state_to_name (VdevState cf) VDEV_AUX_NONE];;
              CaseFile_ReEvaluate_dev env cf devPath physPath None;;
              ret tt
          | None => ret tt
          end
        else ret tt
    end;;
    match devLabel with Some label => nvlist_free env label | None => ret tt end;;
    ret false.
End DevfsEvent.
End DevfsEvent.

(** ** ZfsEvent *)

Module ZfsEvent.
Section ZfsEvent.
Context `{Libzfs} `{Devdctl} {World : Type} (env : Env World).

(** Modelled from the spec: [DevdCtl::ZfsEvent::PoolGUID()] and
    [VdevGUID()] (libdevdctl, not under src/): the pool id and the device
    id the event carries in its [pool_guid] and [vdev_guid] tags. *)
Definition PoolGUID (e : Event) : Guid := Guid_of_string (Value e "pool_guid").
Definition VdevGUID (e : Event) : Guid := Guid_of_string (Value e "vdev_guid").

(** The [for] loop of [TryDetach] over the parent's children: [cleanup]
    becomes [B_TRUE] at the first sibling that is not a spare and is
    healthy, and the loop is left there. *)
Fixpoint siblings_loop (siblings : list Vdev) (cleanup : boolean_t) : boolean_t :=
  match siblings with
  | [] => cleanup
  | sibling :: rest =>
      if negb (Vdev_IsSpare sibling)
         && vdev_state_eqb (Vdev_State sibling) VDEV_STATE_HEALTHY
      then B_TRUE
      else siblings_loop rest cleanup
  end.

(** [ZfsEvent::TryDetach(Vdev &vdev, void *cbArg)] *)
Definition TryDetach (vdev : Vdev) (cbArg : zpool_handle_t) : M World bool :=
  let hdl := cbArg in
  (if Vdev_IsSpare vdev then
     let parent := Vdev_Parent vdev in
     let siblings := Vdev_Children parent in
     let cleanup := siblings_loop siblings B_FALSE in
     match cleanup with
     | B_TRUE =>
         syslog env LOG_INFO "Detaching spare vdev %s from pool %s"
           [Vdev_Path vdev; zpool_get_name hdl];;
         zpool_vdev_detach env hdl (Vdev_Path vdev)
     | B_FALSE => ret tt
     end
   else ret tt);;
  ret false.

(** Modelled from the spec: [VdevIterator::Each] (vdev_iterator.cc is not
    under src/): the callback is applied to the devices of the pool's tree
    in turn, and the walk stops at the first one for which it answers
    true ("done"). *)
Fixpoint Each (cb : Vdev -> zpool_handle_t -> M World bool)
    (cbArg : zpool_handle_t) (vdevs : list Vdev) : M World unit :=
  match vdevs with
  | [] => ret tt
  | vdev :: rest =>
      done ← cb vdev cbArg;
      if (done : bool) then ret tt else Each cb cbArg rest
  end.

(** [ZfsEvent::CleanupSpares()] *)
Definition CleanupSpares (e : Event) : M World unit :=
  let poolGUID := PoolGUID e in
  zpl ← ZpoolList_ByGUID env poolGUID;
  match zpl with
  | hdl :: _ =>
      vdevs ← VdevIterator_vdevs env hdl;
      Each TryDetach hdl vdevs
  | [] => ret tt
  end.

(** [ZfsEvent::ProcessPoolEvent()] *)
Definition ProcessPoolEvent (e : Event) : M World unit :=
  if String.eqb (Value e "type") "misc.fs.zfs.pool_destroy" then
    Event_Log env e LOG_INFO;;
    CaseFile_ReEvaluateByGuid env (PoolGUID e) e
  else
    caseFile ← CaseFile_Find env (PoolGUID e) (VdevGUID e);
    degradedDevice ←
      match caseFile with
      | Some cf =>
          let degradedDevice :=
            if vdev_state_neb (VdevState cf) VDEV_STATE_UNKNOWN
               && vdev_state_ltb (VdevState cf) VDEV_STATE_HEALTHY
            then true else false in
          Event_Log env e LOG_INFO;;
          CaseFile_ReEvaluate env cf e;;
          ret degradedDevice
      | None =>
          if String.eqb (Value e "type") "misc.fs.zfs.resilver_finish" then
            Event_Log env e LOG_INFO;;
            CleanupSpares e;;
            ret false
          else ret false
      end;
    if String.eqb (Value e "type") "misc.fs.zfs.vdev_remove"
       && Bool.eqb degradedDevice false
    then
      Event_Log env e LOG_INFO;;
      RequestSystemRescan env
    else ret tt.

(** [ZfsEvent::Process()] *)
Definition Process (e : Event) : M World bool :=
  if negb (Contains e "class") && negb (Contains e "type") then
    syslog env LOG_ERR "ZfsEvent::Process: Missing class or type data." [];;
    ret false
  else
    (if find_is_0 (Value e "type") "misc.fs.zfs.config_sync" then
       ReplayUnconsumedEvents env true;;
       CaseFile_ReEvaluateByGuid env (PoolGUID e) e
     else ret tt);;
    if find_is_0 (Value e "type") "misc.fs.zfs." then
      ProcessPoolEvent e;;
      ret false
    else if negb (Contains e "pool_guid") || negb (Contains e "vdev_guid") then
      ret false
    else
      caseFile ← CaseFile_Find env (PoolGUID e) (VdevGUID e);
      match caseFile with
      | Some cf =>
          Event_Log env e LOG_INFO;;
          syslog env LOG_INFO ("Evaluating existing case file" ++ nl) [];;
          CaseFile_ReEvaluate env cf e;;
          ret false
      | None =>
          let poolGUID := PoolGUID e in
          if find_is_0 (Value e "class") "fs.zfs.vdev.no_replicas" then
            let msg := "No replicas available for pool "
                       ++ Guid_to_string poolGUID ++ ", ignoring" in
            Event_Log env e LOG_INFO;;
            syslog env LOG_INFO "%s" [msg];;
            ret false
          else
            zpl ← ZpoolList_ByGUID env poolGUID;
            match zpl with
            | [] =>
                let msg := "ZfsEvent::Process: Event for unknown pool "
                           ++ Guid_to_string poolGUID ++ " " ++ "queued" in
                Event_Log env e LOG_INFO;;
                syslog env LOG_INFO "%s" [msg];;
                ret true
            | front :: _ =>
                vdevConfig ← VdevIterator_Find env front (VdevGUID e);
                match vdevConfig with
                | None =>
                    let msg := "ZfsEvent::Process: Event for unknown vdev "
                               ++ Guid_to_string (VdevGUID e) ++ " " ++ "queued" in
                    Event_Log env e LOG_INFO;;
                    syslog env LOG_INFO "%s" [msg];;
                    ret true
                | Some config =>
                    let vdev := Vdev_of_pool front config in
                    cf ← CaseFile_Create env vdev;
                    consumed ← CaseFile_ReEvaluate env cf e;
                    if Bool.eqb consumed false then
                      let msg := "ZfsEvent::Process: Unconsumed event for vdev("
                                 ++ zpool_get_name front ++ ","
                                 ++ Guid_to_string (Vdev_GUID vdev) ++ ") "
                                 ++ "queued" in
                      Event_Log env e LOG_INFO;;
                      syslog env LOG_INFO "%s" [msg];;
                      ret true
                    else ret false
                end
            end
      end.
End ZfsEvent.
End ZfsEvent.

(** ** Reading traces *)

Section Traces.
Context `{Libzfs} `{Devdctl}.

(** The detach commands a trace issues, in order. *)
Fixpoint detach_calls (tr : list Obs) : list (zpool_handle_t * string) :=
  match tr with
  | [] => []
  | O_zpool_vdev_detach hdl path :: rest => (hdl, path) :: detach_calls rest
  | _ :: rest => detach_calls rest
  end.

(** A spare is redundant when one child of its parent is both not a spare
    and healthy. *)
Definition has_healthy_sibling (vdev : Vdev) : bool :=
  existsb (fun sibling =>
             negb (Vdev_IsSpare sibling)
             && vdev_state_eqb (Vdev_State sibling) VDEV_STATE_HEALTHY)
          (Vdev_Children (Vdev_Parent vdev)).

Definition redundant_spare (vdev : Vdev) : bool :=
  Vdev_IsSpare vdev && has_healthy_sibling vdev.

(** A storage-subsystem event that reaches the vdev-scoped part of the
    router: it carries a class or a type, and its type does not carry the
    storage-subsystem prefix. *)
Definition vdev_scoped (e : Event) : bool :=
  (Contains e "class" || Contains e "type")
  && negb (find_is_0 (Value e "type") "misc.fs.zfs.").

Definition degraded_fmt : string :=
  "%s is marked degraded.  Ignoring as a replace by physical path candidate." ++ nl.

(** The descriptors a trace obtains from [open], and those it closes. *)
Fixpoint opened (tr : list Obs) : list Z :=
  match tr with
  | [] => []
  | O_open _ _ fd :: rest => fd :: opened rest
  | _ :: rest => opened rest
  end.

Fixpoint closed (tr : list Obs) : list Z :=
  match tr with
  | [] => []
  | O_close fd :: rest => fd :: closed rest
  | _ :: rest => closed rest
  end.

(** The labels a trace reads with status 0, and those it hands to
    [nvlist_free]. *)
Fixpoint read_labels (tr : list Obs) : list nvlist_t :=
  match tr with
  | [] => []
  | O_zpool_read_label _ rl (Some label) :: rest =>
      if rl =? 0 then label :: read_labels rest else read_labels rest
  | _ :: rest => read_labels rest
  end.

Fixpoint freed_labels (tr : list Obs) : list nvlist_t :=
  match tr with
  | [] => []
  | O_nvlist_free label :: rest => label :: freed_labels rest
  | _ :: rest => freed_labels rest
  end.

(** Whether the [Vdev] constructor accepts the label. *)
Definition parses (label : nvlist_t) : bool :=
  match Vdev_of_label label with
  | inr _ => true
  | inl _ => false
  end.

(** What the spare reclaimer does to the world: it logs and it detaches. *)
Definition is_reclaim_obs (o : Obs) : bool :=
  match o with
  | O_syslog _ _ _ | O_zpool_vdev_detach _ _ => true
  | _ => false
  end.

(** What the pool-event handler may do to the world. *)
Definition is_pool_handler_obs (o : Obs) : bool :=
  match o with
  | O_Event_Log _ _ | O_syslog _ _ _
  | O_CaseFile_Find _ _ _ | O_CaseFile_ReEvaluate _ _ _
  | O_CaseFile_ReEvaluateByGuid _ _ | O_RequestSystemRescan
  | O_ZpoolList_ByGUID _ _ | O_VdevIterator_vdevs _ _
  | O_zpool_vdev_detach _ _ => true
  | _ => false
  end.

End Traces.

(** ** The runs of [ReadLabel] and [OnlineByLabel]

    The four ways a call of [DevfsEvent::ReadLabel] can go, each with the
    result it hands back (label, [inUse], [degraded]) and the trace that
    it leaves; and the three ways a call of [DevfsEvent::OnlineByLabel] can
    go. *)
Section LabelRuns.
Context `{Libzfs}.

(** [if (poolName != NULL) free(poolName)] *)
Definition free_obs (poolName : option string) : list Obs :=
  match poolName with
  | Some p => [O_free p]
  | None => []
  end.

Inductive ReadLabel_run (devFd : Z)
    : option nvlist_t * bool * bool -> list Obs -> Prop :=
| RL_in_use_failed rc poolName b_inuse :
    rc <> 0 ->
    ReadLabel_run devFd (None, false, false)
      [O_zpool_in_use devFd rc poolName b_inuse]
| RL_no_label poolName b_inuse rl devLabel :
    rl <> 0 \/ devLabel = None ->
    ReadLabel_run devFd (None, boolean_eqb b_inuse B_TRUE, false)
      (O_zpool_in_use devFd 0 poolName b_inuse
         :: free_obs poolName ++ [O_zpool_read_label devFd rl devLabel])%list
| RL_label poolName b_inuse label vdev :
    Vdev_of_label label = inr vdev ->
    ReadLabel_run devFd
      (Some label, boolean_eqb b_inuse B_TRUE,
       vdev_state_neb (Vdev_State vdev) VDEV_STATE_HEALTHY)
      (O_zpool_in_use devFd 0 poolName b_inuse
         :: free_obs poolName ++ [O_zpool_read_label devFd 0 (Some label)])%list
| RL_parse_error poolName b_inuse label exp devName :
    Vdev_of_label label = inl exp ->
    ReadLabel_run devFd (None, boolean_eqb b_inuse B_TRUE, false)
      (O_zpool_in_use devFd 0 poolName b_inuse
         :: free_obs poolName
         ++ [O_zpool_read_label devFd 0 (Some label);
             O_fdevname devFd devName;
             O_Exception_Log
               (insert_context
                  ("DevfsEvent::ReadLabel: " ++ (_PATH_DEV ++ devName) ++ ": ")
                  exp)])%list.

Definition interrogating (devPath : string) : Obs :=
  O_syslog LOG_INFO ("Interrogating VDEV label for %s" ++ nl) [devPath].

Inductive OnlineByLabel_run (devPath physPath : string) (devConfig : nvlist_t)
    : bool -> list Obs -> Prop :=
| OBL_no_case vdev :
    Vdev_of_label devConfig = inr vdev ->
    OnlineByLabel_run devPath physPath devConfig false
      [interrogating devPath;
       O_CaseFile_Find (Vdev_PoolGUID vdev) (Vdev_GUID vdev) None]
| OBL_case vdev cf consumed :
    Vdev_of_label devConfig = inr vdev ->
    OnlineByLabel_run devPath physPath devConfig consumed
      [interrogating devPath;
       O_CaseFile_Find (Vdev_PoolGUID vdev) (Vdev_GUID vdev) (Some cf);
       O_CaseFile_ReEvaluate_dev cf devPath physPath (Some vdev) consumed]
| OBL_parse_error exp :
    Vdev_of_label devConfig = inl exp ->
    OnlineByLabel_run devPath physPath devConfig false
      [interrogating devPath;
       O_Exception_Log
         (insert_context ("DevfsEvent::OnlineByLabel: " ++ devPath ++ ": ") exp)].

(** The two runs of [CleanupSpares] for the pool id [pool]: the pool is not
    visible; or the devices of the first pool handle are walked, which
    leaves a trace of reclaim steps that detaches the redundant spares. *)
Inductive CleanupSpares_run (pool : Guid) : list Obs -> Prop :=
| CS_pool_not_visible :
    CleanupSpares_run pool [O_ZpoolList_ByGUID pool []]
| CS_walk hdl zpl vdevs walk :
    (forall o, In o walk -> is_reclaim_obs o = true) ->
    detach_calls walk
    = map (fun spare => (hdl, Vdev_Path spare))
          (List.filter redundant_spare vdevs) ->
    CleanupSpares_run pool
      (O_ZpoolList_ByGUID pool (hdl :: zpl)
         :: O_VdevIterator_vdevs hdl vdevs :: walk).

End LabelRuns.

(** ** A concrete world

    A pool [tank] (handle 1, guid 42) with two spare groups, following the
    spare-reclaim example of the specification: group 1 holds the spare S
    (2), the faulted F (3) and the healthy H (4); group 5 holds the spare
    S' (6) and the degraded F' (7).  The world holds a case registry, the
    visible pools and the answers of the device node. *)
Module Testbed.

Record node : Type := mkNode {
  n_guid : Guid;
  n_state : vdev_state;
  n_spare : bool;
  n_path : string;
  n_parent : nat;
  n_children : list nat
}.

Definition arena (i : nat) : node :=
  match i with
  | 1%nat => mkNode 100 VDEV_STATE_DEGRADED false "" 0 [2; 3; 4]%nat
  | 2%nat => mkNode 7 VDEV_STATE_HEALTHY true "/dev/da2" 1 []
  | 3%nat => mkNode 8 VDEV_STATE_FAULTED false "/dev/da3" 1 []
  | 4%nat => mkNode 9 VDEV_STATE_HEALTHY false "/dev/da4" 1 []
  | 5%nat => mkNode 101 VDEV_STATE_DEGRADED false "" 0 [6; 7]%nat
  | 6%nat => mkNode 10 VDEV_STATE_HEALTHY true "/dev/da6" 5 []
  | 7%nat => mkNode 11 VDEV_STATE_DEGRADED false "/dev/da7" 5 []
  | _ => mkNode 1 VDEV_STATE_HEALTHY false "" 0 [1; 5]%nat
  end.

Definition devices : list nat := [0; 1; 2; 3; 4; 5; 6; 7]%nat.

(** Labels and configurations are numbered; label 0 does not parse, label
    [n] describes device [n]. *)
#[export] Instance libzfs : Libzfs := {|
  nvlist_t := N;
  zpool_handle_t := N;
  Vdev := nat;
  Vdev_of_label := fun l =>
    if (l =? 0)%N then inl (mkZfsdException "Unable to extract vdev GUID")
    else inr (N.to_nat l);
  Vdev_of_pool := fun _ config => N.to_nat config;
  Vdev_GUID := fun v => n_guid (arena v);
  Vdev_PoolGUID := fun _ => 42%N;
  Vdev_State := fun v => n_state (arena v);
  Vdev_IsSpare := fun v => n_spare (arena v);
  Vdev_Path := fun v => n_path (arena v);
  Vdev_Parent := fun v => n_parent (arena v);
  Vdev_Children := fun v => n_children (arena v);
  zpool_get_name := fun _ => "tank";
  zpool_state_to_name := fun s _ =>
    match s with
    | VDEV_STATE_HEALTHY => "ONLINE"
    | VDEV_STATE_DEGRADED => "DEGRADED"
    | VDEV_STATE_FAULTED => "FAULTED"
    | _ => "UNAVAIL"
    end
|}.

(** Guids are read and written in decimal. *)
Definition digit (c : ascii) : option N :=
  let n := N_of_ascii c in
  if ((48 <=? n) && (n <=? 57))%N then Some (n - 48)%N else None.

Fixpoint parse_decimal (s : string) (acc : N) : N :=
  match s with
  | EmptyString => acc
  | String c rest =>
      match digit c with
      | Some d => parse_decimal rest (10 * acc + d)%N
      | None => acc
      end
  end.

#[export] Instance devdctl : Devdctl := {|
  IsDiskDev := fun e => String.prefix "da" (Value e "cdev");
  IsWholeDev := fun e => negb (String.prefix "da0s" (Value e "cdev"));
  DevName := fun e => (Contains e "cdev", Value e "cdev");
  DevPath := fun e => (Contains e "cdev", _PATH_DEV ++ Value e "cdev");
  Guid_of_string := fun s => parse_decimal s 0;
  Guid_to_string := fun g => NilEmpty.string_of_uint (N.to_uint g)
|}.

Record Script : Type := mkScript {
  s_open : Z;
  s_fdevname : string;
  s_zpool_in_use : Z * option string * boolean_t;
  s_zpool_read_label : Z * option N;
  s_PhysicalPath : bool * string;
  s_consumed : bool;
  s_cases : list (Guid * Guid * CaseFile);
  s_physPath_cases : list (string * CaseFile);
  s_pools : list (Guid * N);
  s_history : list Obs
}.

Fixpoint find_case (pool vdev : Guid) (cases : list (Guid * Guid * CaseFile))
    : option CaseFile :=
  match cases with
  | [] => None
  | (p, v, cf) :: rest =>
      if ((p =? pool) && (v =? vdev))%N then Some cf else find_case pool vdev rest
  end.

Fixpoint find_physPath_case (physPath : string) (cases : list (string * CaseFile))
    : option CaseFile :=
  match cases with
  | [] => None
  | (p, cf) :: rest =>
      if String.eqb p physPath then Some cf else find_physPath_case physPath rest
  end.

Fixpoint pools_by_guid (pool : Guid) (pools : list (Guid * N)) : list N :=
  match pools with
  | [] => []
  | (p, hdl) :: rest =>
      if (p =? pool)%N then hdl :: pools_by_guid pool rest
      else pools_by_guid pool rest
  end.

Fixpoint device_by_guid (guid : Guid) (ds : list nat) : option N :=
  match ds with
  | [] => None
  | d :: rest =>
      if (n_guid (arena d) =? guid)%N then Some (N.of_nat d)
      else device_by_guid guid rest
  end.

Definition new_case (w : Script) (vdev : nat) : CaseFile :=
  mkCaseFile (N.of_nat (length (s_cases w)))
    (Guid_to_string 42%N) (Guid_to_string (n_guid (arena vdev)))
    (n_state (arena vdev)).

(** Every interaction is recorded in the history, and a created case
    enters the registry. *)
Definition record (o : Obs) (w : Script) : Script :=
  mkScript (s_open w) (s_fdevname w) (s_zpool_in_use w) (s_zpool_read_label w)
    (s_PhysicalPath w) (s_consumed w)
    (match o with
     | O_CaseFile_Create vdev cf => (42%N, n_guid (arena vdev), cf) :: s_cases w
     | _ => s_cases w
     end)
    (s_physPath_cases w) (s_pools w) (o :: s_history w).

Definition env : Env Script := {|
  next := record;
  env_open := fun w _ _ => s_open w;
  env_fdevname := fun w _ => s_fdevname w;
  env_zpool_in_use := fun w _ => s_zpool_in_use w;
  env_zpool_read_label := fun w _ => s_zpool_read_label w;
  env_PhysicalPath := fun w _ => s_PhysicalPath w;
  env_Find := fun w pool vdev => find_case pool vdev (s_cases w);
  env_Find_physPath := fun w physPath =>
    find_physPath_case physPath (s_physPath_cases w);
  env_ReEvaluate_dev := fun w _ _ _ _ => s_consumed w;
  env_ReEvaluate := fun w _ _ => s_consumed w;
  env_Create := new_case;
  env_ZpoolByGUID := fun w pool => pools_by_guid pool (s_pools w);
  env_VdevIterator_Find := fun w _ guid => device_by_guid guid devices;
  env_VdevIterator_vdevs := fun w _ => devices
|}.

Definition event (pairs : list (string * string)) : Event :=
  mkEvent (list_to_map pairs) "".

Definition slot1 : string := "id1,enc@n5000/type@0/slot@1/elmdesc@Slot_00".

Definition case_42_7 : CaseFile := mkCaseFile 1 "42" "7" VDEV_STATE_FAULTED.
Definition case_42_8 : CaseFile := mkCaseFile 2 "42" "8" VDEV_STATE_FAULTED.

(** A quiet world: the device opens as descriptor 3 and carries no label,
    no case is open, the pool [tank] is visible. *)
Definition quiet : Script := {|
  s_open := 3;
  s_fdevname := "da1";
  s_zpool_in_use := (0, None, B_FALSE);
  s_zpool_read_label := (0, None);
  s_PhysicalPath := (true, slot1);
  s_consumed := true;
  s_cases := [];
  s_physPath_cases := [];
  s_pools := [(42%N, 1%N)];
  s_history := []
|}.

(** The arriving device carries the label of the faulted device 3 and is
    not in use, while a case is open for its physical slot. *)
Definition degraded_in_slot1 : Script := {|
  s_open := 3;
  s_fdevname := "da1";
  s_zpool_in_use := (0, Some "tank", B_FALSE);
  s_zpool_read_label := (0, Some 3%N);
  s_PhysicalPath := (true, slot1);
  s_consumed := true;
  s_cases := [(42%N, 8%N, case_42_8)];
  s_physPath_cases := [(slot1, case_42_8)];
  s_pools := [(42%N, 1%N)];
  s_history := []
|}.

(** The arriving device carries the label of device 2 (pool 42, vdev 7,
    healthy), is in use, and a case is open for (42, 7). *)
Definition returning_42_7 : Script := {|
  s_open := 3;
  s_fdevname := "da1";
  s_zpool_in_use := (0, Some "tank", B_TRUE);
  s_zpool_read_label := (0, Some 2%N);
  s_PhysicalPath := (true, slot1);
  s_consumed := true;
  s_cases := [(42%N, 7%N, case_42_7)];
  s_physPath_cases := [];
  s_pools := [(42%N, 1%N)];
  s_history := []
|}.

(** The arriving device carries a label that does not parse. *)
Definition unparsable : Script := {|
  s_open := 3;
  s_fdevname := "da1";
  s_zpool_in_use := (0, None, B_TRUE);
  s_zpool_read_label := (0, Some 0%N);
  s_PhysicalPath := (false, "");
  s_consumed := true;
  s_cases := [];
  s_physPath_cases := [];
  s_pools := [(42%N, 1%N)];
  s_history := []
|}.

(** No pool is visible, and cases leave events unconsumed. *)
Definition no_pools : Script := {|
  s_open := 3;
  s_fdevname := "da1";
  s_zpool_in_use := (0, None, B_FALSE);
  s_zpool_read_label := (0, None);
  s_PhysicalPath := (false, "");
  s_consumed := false;
  s_cases := [];
  s_physPath_cases := [];
  s_pools := [];
  s_history := []
|}.

Definition create_da1 : Event := event [("type", "CREATE"); ("cdev", "da1")].
Definition destroy_da1 : Event := event [("type", "DESTROY"); ("cdev", "da1")].
Definition no_replicas_9_3 : Event :=
  event [("class", "fs.zfs.vdev.no_replicas"); ("pool_guid", "9");
         ("vdev_guid", "3")].
Definition checksum_42_8 : Event :=
  event [("class", "ereport.fs.zfs.checksum"); ("pool_guid", "42");
         ("vdev_guid", "8")].
Definition checksum_without_vdev : Event :=
  event [("class", "ereport.fs.zfs.checksum"); ("pool_guid", "42")].
Definition config_sync_42 : Event :=
  event [("type", "misc.fs.zfs.config_sync"); ("pool_guid", "42")].
Definition vdev_remove_42_8 : Event :=
  event [("type", "misc.fs.zfs.vdev_remove"); ("pool_guid", "42");
         ("vdev_guid", "8")].

(** An unlabelled healthy disk arrives in a slot for which a case is
    open. *)
Definition replacement_in_slot1 : Script := {|
  s_open := 3;
  s_fdevname := "da1";
  s_zpool_in_use := (0, None, B_FALSE);
  s_zpool_read_label := (0, None);
  s_PhysicalPath := (true, slot1);
  s_consumed := true;
  s_cases := [(42%N, 8%N, case_42_8)];
  s_physPath_cases := [(slot1, case_42_8)];
  s_pools := [(42%N, 1%N)];
  s_history := []
|}.


Definition resilver_finish_42 : Event :=
  event [("type", "misc.fs.zfs.resilver_finish"); ("pool_guid", "42")].
Definition pool_destroy_42 : Event :=
  event [("type", "misc.fs.zfs.pool_destroy"); ("pool_guid", "42")].



End Testbed.

(** ** Facts about strings and states *)

Lemma find_is_0_prefix (s pat : string) : find_is_0 s pat = String.prefix pat s.
Proof.
  unfold find_is_0, find.
  destruct s as [|c s]; simpl.
  - destruct pat; reflexivity.
  - destruct pat as [|p pat]; [reflexivity|].
    simpl. destruct (ascii_dec p c); [destruct (String.prefix pat s)|]; simpl;
      try reflexivity;
      destruct (String.index 0 (String p pat) s); reflexivity.
Qed.

Lemma prefix_trans (a b s : string) :
  String.prefix a b = true -> String.prefix b s = true -> String.prefix a s = true.
Proof.
  revert b s. induction a as [|x a IH]; intros b s Hab Hbs; [destruct s; reflexivity|].
  destruct b as [|y b]; [discriminate|].
  destruct s as [|z s]; [discriminate|].
  simpl in *.
  destruct (ascii_dec x y) as [->|]; [|discriminate].
  destruct (ascii_dec y z); [|discriminate].
  eauto.
Qed.

Lemma find_is_0_trans (s a b : string) :
  String.prefix a b = true -> find_is_0 s b = true -> find_is_0 s a = true.
Proof. rewrite !find_is_0_prefix. apply prefix_trans. Qed.

Lemma find_is_0_Contains (e : Event) (k pat : string) :
  pat <> "" -> find_is_0 (Value e k) pat = true -> Contains e k = true.
Proof.
  intros Hpat. rewrite find_is_0_prefix. unfold Value, Contains.
  destruct (nvPairs e !! k); [reflexivity|].
  destruct pat; [contradiction|discriminate].
Qed.

Lemma vdev_state_eqb_eq (a b : vdev_state) : vdev_state_eqb a b = true <-> a = b.
Proof. destruct a, b; vm_compute; split; congruence. Qed.

Lemma vdev_state_neb_ne (a b : vdev_state) : vdev_state_neb a b = true <-> a <> b.
Proof. destruct a, b; vm_compute; split; congruence. Qed.


Lemma suffix_cons {A} (x : A) (l s : list A) :
  (exists pre, l = (pre ++ s)%list) -> exists pre, x :: l = (pre ++ s)%list.
Proof. intros [pre ->]. exists (x :: pre). reflexivity. Qed.

#[local] Arguments bind {_ _ _ _} _ _ _ /.
#[local] Arguments try_catch {_ _ _} _ _ _ /.
#[local] Arguments answer_in : simpl never.
#[local] Arguments String.eqb : simpl never.
#[local] Arguments find_is_0 : simpl never.
#[local] Arguments Value : simpl never.
#[local] Arguments Contains : simpl never.
#[local] Arguments Z.eqb : simpl never.

(** Name the answers of the collaborators, innermost first, in a run
    recorded as the equation [E]. *)
Ltac name_answers E :=
  repeat match type of E with
  | context [@answer_in ?W ?A ?q ?w] =>
      lazymatch q with
      | context [@answer_in] => fail
      | _ =>
          lazymatch w with
          | context [@answer_in] => fail
          | _ =>
              let a := fresh "answer" in
              let Ha := fresh in
              remember (@answer_in W A q w) as a eqn:Ha in *; clear Ha
          end
      end
  end.

(** Case analysis on the next test the program makes. *)
Ltac branch E :=
  match type of E with
  | context [match ?x with _ => _ end] =>
      lazymatch x with
      | context [match _ with _ => _ end] => fail
      | _ =>
          lazymatch goal with
          | H : x = _ |- _ => rewrite H in E
          | _ => destruct x eqn:?
          end
      end
  end; cbn in E; name_answers E.

(** Membership in a trace that has been computed. *)
Ltac in_trace :=
  unfold interrogating, degraded_fmt, nl in *;
  repeat match goal with
  | H : False |- _ => destruct H
  | H : _ \/ _ |- _ => destruct H as [H|H]
  | H : _ /\ _ |- _ => destruct H as [? ?]
  | H : exists _, _ |- _ => destruct H as [? H]
  | H : ?x = ?x |- _ => clear H
  | H : @eq Obs _ _ |- _ =>
      cbv [String.append] in H;
      first [discriminate H | injection H as ?; subst]
  | H : In _ [] |- _ => destruct H
  | H : In _ (_ :: _) |- _ => cbn in H
  | H : In _ (_ ++ _) |- _ => apply in_app_or in H
  | H : In _ (free_obs ?p) |- _ => destruct p; cbn in H
  | H : In _ (trace _) |- _ => cbn in H
  end.

Ltac zeq :=
  repeat match goal with
  | H : (_ =? _) = true |- _ => apply Z.eqb_eq in H
  | H : (_ =? _) = false |- _ => apply Z.eqb_neq in H
  end.

Ltac suffix :=
  lazymatch goal with
  | |- exists pre, ?l = (pre ++ ?s)%list =>
      first [ exists []; reflexivity | apply suffix_cons; suffix ]
  end.

Section DevfsEventFacts.
Context `{Libzfs} `{Devdctl} {World : Type} (env : Env World).

(** Every run of [ReadLabel] is one of the four of [ReadLabel_run], and
    none ends with an exception in flight. *)
Lemma ReadLabel_sound (devFd : Z) (w : World) :
  exists result,
    value (DevfsEvent.ReadLabel env devFd w) = inr result
    /\ ReadLabel_run devFd result (trace (DevfsEvent.ReadLabel env devFd w)).
Proof.
  destruct (DevfsEvent.ReadLabel env devFd w) as [v w' tr] eqn:E.
  unfold DevfsEvent.ReadLabel, Vdev_new in E. cbn in E. name_answers E.
  repeat branch E; injection E as <- <- <-; zeq; subst;
    eexists; (split; [reflexivity|]).
  all: cbn;
    match goal with
    | Hv : Vdev_of_label ?l = inl ?x
      |- ReadLabel_run _ _ (O_zpool_in_use _ _ ?p ?b :: _) =>
        exact (RL_parse_error _ p b l x _ Hv)
    | Hv : Vdev_of_label ?l = inr ?x
      |- ReadLabel_run _ _ (O_zpool_in_use _ _ ?p ?b :: _) =>
        exact (RL_label _ p b l x Hv)
    | |- ReadLabel_run _ (_, false, _) [O_zpool_in_use _ ?rc ?p ?b] =>
        apply RL_in_use_failed; assumption
    | |- ReadLabel_run _ _ (O_zpool_in_use _ _ ?p ?b :: _) =>
        apply (RL_no_label _ p b); auto
    end.
Qed.

(** Likewise for [OnlineByLabel]. *)
Lemma OnlineByLabel_sound (devPath physPath : string) (devConfig : nvlist_t)
    (w : World) :
  exists matched,
    value (DevfsEvent.OnlineByLabel env devPath physPath devConfig w)
    = inr matched
    /\ OnlineByLabel_run devPath physPath devConfig matched
         (trace (DevfsEvent.OnlineByLabel env devPath physPath devConfig w)).
Proof.
  destruct (DevfsEvent.OnlineByLabel env devPath physPath devConfig w)
    as [v w' tr] eqn:E.
  unfold DevfsEvent.OnlineByLabel, Vdev_new in E. cbn in E. name_answers E.
  repeat branch E; injection E as <- <- <-;
    eexists; (split; [reflexivity|]); cbn.
  - apply OBL_parse_error; assumption.
  - eapply OBL_case; eassumption.
  - eapply OBL_no_case; eassumption.
Qed.

Opaque DevfsEvent.ReadLabel DevfsEvent.OnlineByLabel.

(** In a run [E] of [Process], replace the calls of [ReadLabel] and of
    [OnlineByLabel] by their possible runs. *)
Ltac label_run E :=
  match type of E with
  | context [DevfsEvent.ReadLabel env ?fd ?w] =>
      let Hv := fresh "Hv" in
      let Hrun := fresh "Hrun" in
      destruct (ReadLabel_sound fd w) as (? & Hv & Hrun);
      destruct (DevfsEvent.ReadLabel env fd w) as [? ? ?];
      cbn in Hv, Hrun; subst; destruct Hrun; cbn in E; name_answers E
  | context [DevfsEvent.OnlineByLabel env ?d ?p ?l ?w] =>
      let Hv := fresh "Hv" in
      let Hrun := fresh "Hrun" in
      destruct (OnlineByLabel_sound d p l w) as (? & Hv & Hrun);
      destruct (DevfsEvent.OnlineByLabel env d p l w) as [? ? ?];
      cbn in Hv, Hrun; subst; destruct Hrun; cbn in E; name_answers E
  end.

Ltac runs_Process e w :=
  let E := fresh "E" in
  destruct (DevfsEvent.Process env e w) as [? ? ?] eqn:E;
  unfold DevfsEvent.Process in E;
  cbn in E; name_answers E;
  repeat (first [label_run E | branch E]);
  injection E as <- <- <-.

(** C5.  A device-arrival event is never retained for replay, whatever
    the collaborators answer; and when its type is not "CREATE" or the
    device is not a disk, [Process] returns at once: nothing is asked of
    any collaborator and the world is as before. *)
Theorem DevfsEvent_Process_never_retained (e : Event) (w : World) :
  value (DevfsEvent.Process env e w) = inr false
  /\ (Value e "type" <> "CREATE" \/ IsDiskDev e = false ->
      trace (DevfsEvent.Process env e w) = []
      /\ world (DevfsEvent.Process env e w) = w).
Proof.
  split.
  - runs_Process e w; reflexivity.
  - intros Hguard. unfold DevfsEvent.Process.
    assert (negb (String.eqb (Value e "type") "CREATE")
            || negb (IsDiskDev e) = true) as ->; [|split; reflexivity].
    destruct Hguard as [Hty | ->].
    + apply String.eqb_neq in Hty. rewrite Hty. reflexivity.
    + apply orb_true_r.
Qed.


(** C7.  When the label was read and its parsing throws, [ReadLabel]
    catches the exception: it asks for the name of the device node, logs
    the exception with "DevfsEvent::ReadLabel: /dev/<name>: " put before
    its message, and returns NULL with [degraded] false; no exception
    leaves [ReadLabel]. *)
Theorem ReadLabel_catches_parse_error
    (devFd : Z) (w : World) (label : nvlist_t) (exp : ZfsdException) :
  let r := DevfsEvent.ReadLabel env devFd w in
  In (O_zpool_read_label devFd 0 (Some label)) (trace r) ->
  Vdev_of_label label = inl exp ->
  exists inUse devName,
    value r = inr (None, inUse, false)
    /\ exists pre,
         trace r
         = (pre ++ [O_fdevname devFd devName;
                    O_Exception_Log
                      (mkZfsdException
                         (("DevfsEvent::ReadLabel: "
                           ++ (_PATH_DEV ++ devName) ++ ": ")
                          ++ GetString exp))])%list.
Proof.
  intros r Hread Hparse. subst r.
  destruct (ReadLabel_sound devFd w) as (result & -> & Hrun).
  destruct Hrun as [rc pn b Hrc | pn b rl dl Hnone | pn b l v Hok
                   | pn b l x devName Hbad];
    in_trace; try congruence.
  assert (x = exp) as -> by congruence.
  exists (boolean_eqb b B_TRUE), devName. split; [reflexivity|].
  destruct pn; cbn; suffix.
Qed.

(** C10.  [ReadLabel] hands back [degraded] true only together with a
    label; and [Process] writes the "marked degraded" line only after
    [zpool_in_use] answered that the device is not in use, the label was
    read, and it parsed to a device that is not healthy. *)
Theorem degraded_only_with_label (devFd : Z) (e : Event) (w : World) :
  (forall devLabel inUse degraded,
      value (DevfsEvent.ReadLabel env devFd w) = inr (devLabel, inUse, degraded) ->
      devLabel = None -> degraded = false)
  /\ (forall args,
        In (O_syslog LOG_INFO degraded_fmt args)
           (trace (DevfsEvent.Process env e w)) ->
        exists fd poolName label vdev,
          In (O_zpool_in_use fd 0 poolName B_FALSE)
             (trace (DevfsEvent.Process env e w))
          /\ In (O_zpool_read_label fd 0 (Some label))
                (trace (DevfsEvent.Process env e w))
          /\ Vdev_of_label label = inr vdev
          /\ Vdev_State vdev <> VDEV_STATE_HEALTHY).
Proof.
  split.
  - intros devLabel inUse degraded Hv Hnone.
    destruct (ReadLabel_sound devFd w) as (result & Hr & Hrun).
    rewrite Hr in Hv. injection Hv as ->.
    inversion Hrun; subst; congruence.
  - intros args.
    runs_Process e w; intros Hlog; in_trace; try discriminate.
    all: match goal with
         | Hb : boolean_eqb ?b B_TRUE = false |- _ =>
             destruct b; [|discriminate Hb]
         end.
    all: match goal with
         | Hl : Vdev_of_label ?l = inr ?v,
           Hn : vdev_state_neb (Vdev_State ?v) _ = true
           |- context [O_zpool_in_use ?fd 0 ?p _] =>
             exists fd, p, l, v
         end.
    all: repeat split; try assumption;
      try (apply vdev_state_neb_ne; assumption).
    all: destruct poolName; cbn; auto 10.
Qed.

(** ** Further properties of the device-arrival path *)

(** X1.  [OnlineByLabel] lets no exception out and never looks a case up by
    physical path; it answers true only when the label parses, the case of
    exactly that (pool guid, vdev guid) pair is open, and that case consumed
    the re-evaluation, which carries the device path, the physical path and
    the parsed device. *)
Theorem OnlineByLabel_matches_by_identity
    (devPath physPath : string) (devConfig : nvlist_t) (w : World) :
  let r := DevfsEvent.OnlineByLabel env devPath physPath devConfig w in
  exists matched,
    value r = inr matched
    /\ (forall p found, ~ In (O_CaseFile_Find_physPath p found) (trace r))
    /\ (matched = true ->
        exists vdev cf,
          Vdev_of_label devConfig = inr vdev
          /\ In (O_CaseFile_Find (Vdev_PoolGUID vdev) (Vdev_GUID vdev) (Some cf))
                (trace r)
          /\ In (O_CaseFile_ReEvaluate_dev cf devPath physPath (Some vdev) true)
                (trace r))
    /\ (forall cf d p v consumed,
          In (O_CaseFile_ReEvaluate_dev cf d p v consumed) (trace r) ->
          consumed = matched /\ d = devPath /\ p = physPath
          /\ exists vdev, v = Some vdev /\ Vdev_of_label devConfig = inr vdev).
Proof.
  intros r. subst r.
  destruct (OnlineByLabel_sound devPath physPath devConfig w)
    as (matched & Hv & Hrun).
  exists matched. split; [exact Hv|].
  destruct Hrun as [vdev Hok | vdev cf consumed Hok | exp Hbad].
  - repeat split; try discriminate; unfold not; intros; in_trace.
  - split; [unfold not; intros; in_trace|].
    split.
    + intros ->. exists vdev, cf.
      split; [exact Hok|]. split; cbn; auto 6.
    + intros cf' d p v c Hin. in_trace. repeat split. eauto.
  - repeat split; try discriminate; unfold not; intros; in_trace.
Qed.

(** X2.  When the label does not parse, [OnlineByLabel] writes the
    interrogation line, logs the exception with
    "DevfsEvent::OnlineByLabel: <devPath>: " put before its message, and
    answers false: the registry is not consulted. *)
Theorem OnlineByLabel_parse_error
    (devPath physPath : string) (devConfig : nvlist_t) (exp : ZfsdException)
    (w : World) :
  Vdev_of_label devConfig = inl exp ->
  let r := DevfsEvent.OnlineByLabel env devPath physPath devConfig w in
  value r = inr false
  /\ trace r
     = [O_syslog LOG_INFO ("Interrogating VDEV label for %s" ++ nl) [devPath];
        O_Exception_Log
          (mkZfsdException
             (("DevfsEvent::OnlineByLabel: " ++ devPath ++ ": ")
              ++ GetString exp))].
Proof.
  intros Hbad r. subst r.
  destruct (OnlineByLabel_sound devPath physPath devConfig w)
    as (matched & Hv & Hrun).
  destruct Hrun as [vdev Hok | vdev cf consumed Hok | x Hx]; try congruence.
  assert (x = exp) as -> by congruence.
  split; [exact Hv | reflexivity].
Qed.

(** X3.  The [inUse] flag of [ReadLabel] is [b_inuse == B_TRUE] whenever
    [zpool_in_use] succeeded, whatever becomes of the label; and when
    [zpool_in_use] fails nothing else is asked of the device: no label is
    read and the result is (NULL, false, false). *)
Theorem ReadLabel_in_use_flag
    (devFd : Z) (w : World) (rc : Z) (poolName : option string)
    (b_inuse : boolean_t) :
  let r := DevfsEvent.ReadLabel env devFd w in
  In (O_zpool_in_use devFd rc poolName b_inuse) (trace r) ->
  (rc = 0 ->
   exists devLabel degraded,
     value r = inr (devLabel, boolean_eqb b_inuse B_TRUE, degraded))
  /\ (rc <> 0 ->
      value r = inr (None, false, false)
      /\ trace r = [O_zpool_in_use devFd rc poolName b_inuse]).
Proof.
  intros r Hin. subst r.
  destruct (ReadLabel_sound devFd w) as (result & -> & Hrun).
  destruct Hrun; in_trace; (split; [intros Hrc | intros Hrc]);
    try congruence; eauto.
Qed.

(** X4.  A label handed back by [ReadLabel] is the label that was read
    with status 0, it parses, and [degraded] tells exactly whether the state
    of the parsed device differs from healthy. *)
Theorem ReadLabel_label_and_state
    (devFd : Z) (w : World) (label : nvlist_t) (inUse degraded : bool) :
  let r := DevfsEvent.ReadLabel env devFd w in
  value r = inr (Some label, inUse, degraded) ->
  exists vdev,
    In (O_zpool_read_label devFd 0 (Some label)) (trace r)
    /\ Vdev_of_label label = inr vdev
    /\ (degraded = true <-> Vdev_State vdev <> VDEV_STATE_HEALTHY)
    /\ (forall exp, ~ In (O_Exception_Log exp) (trace r)).
Proof.
  intros r Hv. subst r.
  destruct (ReadLabel_sound devFd w) as (result & Hr & Hrun).
  destruct (DevfsEvent.ReadLabel env devFd w) as [v w' tr].
  cbn in Hr, Hv, Hrun |- *.
  rewrite Hr in Hv. injection Hv as ->.
  inversion Hrun as [| | pn b l vdev Hok |]; subst.
  exists vdev. split; [destruct pn; cbn; auto 6|].
  split; [exact Hok|].
  split; [apply vdev_state_neb_ne|].
  unfold not; intros; destruct pn; in_trace.
Qed.

(** X5.  Descriptor discipline of [Process]: the descriptors it closes are
    exactly the ones [open] handed out other than -1, each once; and every
    question put to the device ([zpool_in_use], [zpool_read_label],
    [fdevname]) uses a descriptor that [open] handed out and that is not
    -1. *)
Theorem DevfsEvent_Process_closes_what_it_opens (e : Event) (w : World) :
  let r := DevfsEvent.Process env e w in
  closed (trace r) = List.filter (fun fd => negb (fd =? -1)) (opened (trace r))
  /\ (length (opened (trace r)) <= 1)%nat
  /\ (forall fd,
        (exists rc pn b, In (O_zpool_in_use fd rc pn b) (trace r))
        \/ (exists rl l, In (O_zpool_read_label fd rl l) (trace r))
        \/ (exists name, In (O_fdevname fd name) (trace r)) ->
        fd <> -1 /\ opened (trace r) = [fd]).
Proof.
  intros r. subst r.
  runs_Process e w.
  all: repeat match goal with
       | |- context [free_obs ?p] => is_var p; destruct p
       end.
  all: cbn;
    repeat match goal with
    | Hb : (?x =? -1) = _ |- context [?x =? -1] => rewrite Hb
    end; cbn; zeq.
  all: split; [reflexivity|]; split; [auto|].
  all: intros fd [(? & ? & ? & Hin) | [(? & ? & Hin) | (? & Hin)]];
    in_trace; auto.
Qed.

(** X6.  Label discipline of [Process]: the labels it hands to
    [nvlist_free] are exactly the labels read with status 0 that parse.  A
    label whose parsing throws is therefore never freed. *)
Theorem DevfsEvent_Process_frees_parsed_labels (e : Event) (w : World) :
  let r := DevfsEvent.Process env e w in
  freed_labels (trace r) = List.filter parses (read_labels (trace r)).
Proof.
  intros r. subst r.
  runs_Process e w; try congruence.
  all: repeat match goal with
       | |- context [free_obs ?p] => is_var p; destruct p
       end.
  all: cbn; unfold parses;
    repeat match goal with
    | |- context [0 =? 0] => change (0 =? 0) with true; cbn
    | Hl : Vdev_of_label ?l = _ |- context [Vdev_of_label ?l] => rewrite Hl; cbn
    end;
    try reflexivity.
  all: match goal with
       | Hn : ?rl <> 0 \/ ?d = None |- _ =>
           destruct Hn as [Hn | Hn];
           [ apply Z.eqb_neq in Hn; destruct d; cbn; rewrite ?Hn; reflexivity
           | subst d; reflexivity ]
       end.
Qed.

Ltac use_DevPath :=
  try match goal with
      | Hp : DevPath _ = _ |- _ => rewrite ?Hp in *; cbn [fst snd] in *
      end.


(** X8.  The registry is asked for a case by physical path only as a
    fallback: the device is a whole disk whose physical path was obtained,
    no lookup by guids was made and the device was not reported degraded.
    A case found that way is asked to re-evaluate with the device path, that
    physical path and no device; when none is found nothing is
    re-evaluated. *)
Theorem physical_path_match_only_as_fallback
    (e : Event) (w : World) (physPath : string) (found : option CaseFile) :
  let r := DevfsEvent.Process env e w in
  In (O_CaseFile_Find_physPath physPath found) (trace r) ->
  IsWholeDev e = true
  /\ In (O_PhysicalPath e true physPath) (trace r)
  /\ (forall pool guid f, ~ In (O_CaseFile_Find pool guid f) (trace r))
  /\ (forall args, ~ In (O_syslog LOG_INFO degraded_fmt args) (trace r))
  /\ (forall cf, found = Some cf ->
        exists consumed,
          In (O_CaseFile_ReEvaluate_dev cf (snd (DevPath e)) physPath None consumed)
             (trace r))
  /\ (found = None ->
      forall cf d p v consumed,
        ~ In (O_CaseFile_ReEvaluate_dev cf d p v consumed) (trace r)).
Proof.
  intros r; subst r.
  runs_Process e w; intros Hfind; in_trace; try discriminate.
  all: use_DevPath.
  all: match goal with
       | Hb : ?b && IsWholeDev _ = true |- _ =>
           apply andb_true_iff in Hb as [-> Hwhole]
       end.
  all: split; [exact Hwhole|].
  all: split; [destruct poolName; cbn; auto 12|].
  all: repeat split; unfold not; intros; in_trace;
    try discriminate; try congruence.
  all: match goal with
       | Hs : Some _ = Some _ |- _ => injection Hs as ->
       end.
  all: match goal with
       | |- context [O_CaseFile_ReEvaluate_dev _ _ _ None ?c :: _] => exists c
       end.
  all: destruct poolName; cbn; auto 14.
Qed.



(** X11.  When the device path cannot be resolved, [Process] does nothing
    beyond logging the event; when [open] fails, it stops right after the
    failed [open]: the device is not interrogated, nothing is closed and
    the registry is not consulted. *)
Theorem Process_stops_without_device (e : Event) (w : World) :
  let r := DevfsEvent.Process env e w in
  (fst (DevPath e) = false ->
   forall o, In o (trace r) -> o = O_Event_Log e LOG_INFO)
  /\ (forall path flags,
        In (O_open path flags (-1)) (trace r) ->
        trace r = [O_Event_Log e LOG_INFO;
                   O_open (snd (DevPath e)) O_RDONLY (-1)]).
Proof.
  intros r; subst r.
  runs_Process e w; use_DevPath; split.
  all: try (intros Hpath o Hin; subst; cbn in *; try discriminate;
            in_trace; reflexivity).
  all: intros path flags Hin; in_trace; zeq;
    try discriminate; try congruence; try reflexivity.
Qed.

Transparent DevfsEvent.ReadLabel DevfsEvent.OnlineByLabel.
End DevfsEventFacts.

Section ZfsEventFacts.
Context `{Libzfs} `{Devdctl} {World : Type} (env : Env World).

Lemma siblings_loop_existsb (siblings : list Vdev) :
  ZfsEvent.siblings_loop siblings B_FALSE
  = if existsb (fun sibling =>
                  negb (Vdev_IsSpare sibling)
                  && vdev_state_eqb (Vdev_State sibling) VDEV_STATE_HEALTHY)
               siblings
    then B_TRUE else B_FALSE.
Proof.
  induction siblings as [|sibling rest IH]; [reflexivity|].
  cbn. destruct (negb (Vdev_IsSpare sibling)
                 && vdev_state_eqb (Vdev_State sibling) VDEV_STATE_HEALTHY);
    [reflexivity | exact IH].
Qed.

(** The two runs of [TryDetach]. *)
Lemma TryDetach_run (vdev : Vdev) (hdl : zpool_handle_t) (w : World) :
  value (ZfsEvent.TryDetach env vdev hdl w) = inr false
  /\ trace (ZfsEvent.TryDetach env vdev hdl w)
     = if redundant_spare vdev
       then [O_syslog LOG_INFO "Detaching spare vdev %s from pool %s"
               [Vdev_Path vdev; zpool_get_name hdl];
             O_zpool_vdev_detach hdl (Vdev_Path vdev)]
       else [].
Proof.
  unfold ZfsEvent.TryDetach, redundant_spare, has_healthy_sibling.
  rewrite siblings_loop_existsb.
  destruct (Vdev_IsSpare vdev); cbn; [|split; reflexivity].
  destruct (existsb _ _); cbn; split; reflexivity.
Qed.

Lemma detach_calls_app (tr1 tr2 : list Obs) :
  detach_calls (tr1 ++ tr2) = (detach_calls tr1 ++ detach_calls tr2)%list.
Proof.
  induction tr1 as [|o tr1 IH]; [reflexivity|].
  destruct o; cbn; rewrite IH; reflexivity.
Qed.

(** The walk over the pool's devices reaches every one of them. *)
Lemma Each_TryDetach_run (hdl : zpool_handle_t) (vdevs : list Vdev) (w : World) :
  value (ZfsEvent.Each (ZfsEvent.TryDetach env) hdl vdevs w) = inr tt
  /\ detach_calls (trace (ZfsEvent.Each (ZfsEvent.TryDetach env) hdl vdevs w))
     = map (fun vdev => (hdl, Vdev_Path vdev)) (List.filter redundant_spare vdevs).
Proof.
  revert w. induction vdevs as [|vdev rest IH]; intros w; [split; reflexivity|].
  cbn [ZfsEvent.Each]. unfold bind.
  destruct (TryDetach_run vdev hdl w) as [Hv Ht].
  destruct (ZfsEvent.TryDetach env vdev hdl w) as [v w' tr].
  cbn in Hv, Ht. subst v tr. cbn [value world trace].
  destruct (IH w') as [IHv IHt].
  split; [exact IHv|].
  rewrite detach_calls_app, IHt. cbn [List.filter].
  destruct (redundant_spare vdev); reflexivity.
Qed.

Lemma CleanupSpares_returns (e : Event) (w : World) :
  value (ZfsEvent.CleanupSpares env e w) = inr tt.
Proof.
  unfold ZfsEvent.CleanupSpares. cbn.
  destruct (answer_in _ w) as [|hdl zpl]; [reflexivity|].
  cbn. apply Each_TryDetach_run.
Qed.

Opaque ZfsEvent.CleanupSpares.

Lemma ProcessPoolEvent_returns (e : Event) (w : World) :
  value (ZfsEvent.ProcessPoolEvent env e w) = inr tt.
Proof.
  destruct (ZfsEvent.ProcessPoolEvent env e w) as [v w' tr] eqn:E.
  unfold ZfsEvent.ProcessPoolEvent in E. cbn in E. name_answers E.
  repeat (first
    [ match type of E with
      | context [ZfsEvent.CleanupSpares env ?ev ?w0] =>
          let Hc := fresh in
          pose proof (CleanupSpares_returns ev w0) as Hc;
          destruct (ZfsEvent.CleanupSpares env ev w0) as [? ? ?];
          cbn in Hc; subst; cbn in E
      end
    | branch E ]);
  injection E as <- <- <-; reflexivity.
Qed.

(** C4.  [TryDetach] returns false for every device; it issues the
    detach command for the device exactly when the device is a spare
    and some child of its parent is not a spare and healthy, and it
    issues no other detach command.  Hence the walk over the devices of
    the pool, which goes on while the callback answers false, detaches
    every redundant spare among them, in order. *)
Theorem TryDetach_detaches_redundant_spares
    (vdev : Vdev) (hdl : zpool_handle_t) (vdevs : list Vdev) (w : World) :
  let r := ZfsEvent.TryDetach env vdev hdl w in
  value r = inr false
  /\ (In (O_zpool_vdev_detach hdl (Vdev_Path vdev)) (trace r) <->
      Vdev_IsSpare vdev = true
      /\ exists sibling,
           In sibling (Vdev_Children (Vdev_Parent vdev))
           /\ Vdev_IsSpare sibling = false
           /\ Vdev_State sibling = VDEV_STATE_HEALTHY)
  /\ (forall h path, In (O_zpool_vdev_detach h path) (trace r) ->
                     h = hdl /\ path = Vdev_Path vdev)
  /\ detach_calls (trace (ZfsEvent.Each (ZfsEvent.TryDetach env) hdl vdevs w))
     = map (fun spare => (hdl, Vdev_Path spare)) (List.filter redundant_spare vdevs).
Proof.
  intros r. subst r.
  destruct (TryDetach_run vdev hdl w) as [Hv Ht].
  split; [exact Hv|]. rewrite Ht.
  split; [|split; [|apply Each_TryDetach_run]].
  - unfold redundant_spare, has_healthy_sibling.
    destruct (Vdev_IsSpare vdev); cbn.
    + destruct (existsb _ _) eqn:Hex; cbn.
      * split; [|auto]. intros _. split; [reflexivity|].
        apply existsb_exists in Hex as (sibling & Hin & Hs).
        apply andb_true_iff in Hs as [Hns Hst].
        exists sibling. repeat split; [exact Hin| |].
        -- destruct (Vdev_IsSpare sibling); [discriminate|reflexivity].
        -- apply vdev_state_eqb_eq. exact Hst.
      * split; [intros []|]. intros [_ (sibling & Hin & Hns & Hst)].
        assert (existsb (fun s => negb (Vdev_IsSpare s)
                   && vdev_state_eqb (Vdev_State s) VDEV_STATE_HEALTHY)
                  (Vdev_Children (Vdev_Parent vdev)) = true) as Hex'.
        { apply existsb_exists. exists sibling. split; [exact Hin|].
          rewrite Hns, Hst. reflexivity. }
        congruence.
    + split; [intros []|]. intros [Hs _]. discriminate.
  - intros h path Hin. destruct (redundant_spare vdev); in_trace.
    split; reflexivity.
Qed.



Opaque ZfsEvent.ProcessPoolEvent.



(** C3.  On an event whose type begins with the config-sync marker,
    [Process] first replays the deferred events with [discard] true,
    then re-evaluates the cases of the event's pool against the event,
    then runs the pool-event handler, and returns false. *)
Theorem config_sync_replays_then_reevaluates (e : Event) (w : World) :
  find_is_0 (Value e "type") "misc.fs.zfs.config_sync" = true ->
  let w1 := next env (O_ReplayUnconsumedEvents true) w in
  let w2 := next env (O_CaseFile_ReEvaluateByGuid (ZfsEvent.PoolGUID e) e) w1 in
  let r := ZfsEvent.Process env e w in
  value r = inr false
  /\ trace r
     = O_ReplayUnconsumedEvents true
       :: O_CaseFile_ReEvaluateByGuid (ZfsEvent.PoolGUID e) e
       :: trace (ZfsEvent.ProcessPoolEvent env e w2)
  /\ world r = world (ZfsEvent.ProcessPoolEvent env e w2).
Proof.
  intros Hsync w1 w2 r. subst r w1 w2.
  assert (Contains e "type" = true) as Htype
    by (apply (find_is_0_Contains e "type" "misc.fs.zfs.config_sync");
        [discriminate | exact Hsync]).
  assert (find_is_0 (Value e "type") "misc.fs.zfs." = true) as Hprefix
    by (apply (find_is_0_trans _ "misc.fs.zfs." "misc.fs.zfs.config_sync");
        [reflexivity | exact Hsync]).
  unfold ZfsEvent.Process.
  rewrite Htype, Hsync, Hprefix, andb_false_r. cbn.
  match goal with
  | |- context [ZfsEvent.ProcessPoolEvent env e ?w0] =>
      pose proof (ProcessPoolEvent_returns e w0) as Hret;
      destruct (ZfsEvent.ProcessPoolEvent env e w0) as [v w' tr]
  end.
  cbn in Hret. subst v. cbn. rewrite app_nil_r. repeat split.
Qed.

(** C6.  An event whose type lacks the storage-subsystem prefix and
    that misses the [pool_guid] tag or the [vdev_guid] tag is discarded:
    [Process] returns false, and the only thing it may do is log the
    error of an event with neither class nor type. *)
Theorem event_without_guid_tags_discarded (e : Event) (w : World) :
  find_is_0 (Value e "type") "misc.fs.zfs." = false ->
  Contains e "pool_guid" = false \/ Contains e "vdev_guid" = false ->
  let r := ZfsEvent.Process env e w in
  value r = inr false
  /\ trace r
     = if negb (Contains e "class") && negb (Contains e "type")
       then [O_syslog LOG_ERR "ZfsEvent::Process: Missing class or type data." []]
       else [].
Proof.
  intros Hprefix Htags r. subst r.
  assert (find_is_0 (Value e "type") "misc.fs.zfs.config_sync" = false) as Hsync.
  { destruct (find_is_0 (Value e "type") "misc.fs.zfs.config_sync") eqn:Hcs;
      [|reflexivity].
    apply (find_is_0_trans _ "misc.fs.zfs.") in Hcs; [congruence|reflexivity]. }
  assert (negb (Contains e "pool_guid") || negb (Contains e "vdev_guid") = true)
    as Hguard.
  { destruct Htags as [-> | ->]; [reflexivity | apply orb_true_r]. }
  unfold ZfsEvent.Process. rewrite Hsync, Hprefix, Hguard.
  destruct (negb (Contains e "class") && negb (Contains e "type"));
    cbn; split; reflexivity.
Qed.


(** ** Further properties of the storage-subsystem path *)

Transparent ZfsEvent.CleanupSpares ZfsEvent.ProcessPoolEvent.

Lemma Each_TryDetach_reclaims (hdl : zpool_handle_t) (vdevs : list Vdev) (w : World) :
  forall o,
    In o (trace (ZfsEvent.Each (ZfsEvent.TryDetach env) hdl vdevs w)) ->
    is_reclaim_obs o = true.
Proof.
  revert w. induction vdevs as [|vdev rest IH]; intros w o; [intros []|].
  cbn [ZfsEvent.Each]. unfold bind.
  destruct (TryDetach_run vdev hdl w) as [Hv Ht].
  destruct (ZfsEvent.TryDetach env vdev hdl w) as [v w' tr].
  cbn in Hv, Ht. subst v tr. cbn [value world trace].
  intros Hin. apply in_app_or in Hin as [Hin | Hin]; [|exact (IH w' o Hin)].
  destruct (redundant_spare vdev); in_trace; subst; reflexivity.
Qed.

Lemma CleanupSpares_sound (e : Event) (w : World) :
  CleanupSpares_run (ZfsEvent.PoolGUID e) (trace (ZfsEvent.CleanupSpares env e w)).
Proof.
  unfold ZfsEvent.CleanupSpares. cbn.
  destruct (answer_in _ w) as [|hdl zpl]; cbn; [constructor|].
  match goal with
  | |- context [ZfsEvent.Each _ hdl ?vs ?w0] =>
      apply (CS_walk _ hdl zpl vs);
      [ apply Each_TryDetach_reclaims | apply Each_TryDetach_run ]
  end.
Qed.

Opaque ZfsEvent.CleanupSpares.

(** In a run [E], replace the call of [CleanupSpares] by one of its runs. *)
Ltac cleanup_run E :=
  match type of E with
  | context [ZfsEvent.CleanupSpares env ?ev ?w0] =>
      let Hc := fresh "Hc" in
      let Hrun := fresh "Hrun" in
      pose proof (CleanupSpares_returns ev w0) as Hc;
      pose proof (CleanupSpares_sound ev w0) as Hrun;
      destruct (ZfsEvent.CleanupSpares env ev w0) as [? ? ?];
      cbn in Hc, Hrun; subst; destruct Hrun; cbn in E
  end.

Ltac runs_pool_event e w :=
  let E := fresh "E" in
  destruct (ZfsEvent.ProcessPoolEvent env e w) as [? ? ?] eqn:E;
  unfold ZfsEvent.ProcessPoolEvent in E;
  cbn in E; name_answers E;
  repeat (first [cleanup_run E | branch E]);
  injection E as <- <- <-.

(** Membership in the walk of the reclaimer. *)
Ltac in_walk :=
  repeat match goal with
  | Hw : forall o, In o ?walk -> is_reclaim_obs o = true, Hin : In ?x ?walk |- _ =>
      apply Hw in Hin; cbn in Hin; try discriminate Hin
  end.

Ltac string_tests :=
  repeat match goal with
  | Hs : String.eqb _ _ = true |- _ => apply String.eqb_eq in Hs
  | Hs : String.eqb _ _ = false |- _ => apply String.eqb_neq in Hs
  end.

(** X12.  [CleanupSpares] asks for the pools of the event's pool id; when
    none is visible it does nothing more; otherwise it walks the devices of
    the first handle only, and the detach commands it issues are those of
    the redundant spares among them, in order, all on that handle. *)
Theorem CleanupSpares_detaches_redundant_spares (e : Event) (w : World) :
  let r := ZfsEvent.CleanupSpares env e w in
  value r = inr tt
  /\ (trace r = [O_ZpoolList_ByGUID (ZfsEvent.PoolGUID e) []]
      \/ exists hdl zpl vdevs walk,
           trace r
           = O_ZpoolList_ByGUID (ZfsEvent.PoolGUID e) (hdl :: zpl)
             :: O_VdevIterator_vdevs hdl vdevs :: walk
           /\ (forall o, In o walk -> is_reclaim_obs o = true)
           /\ detach_calls (trace r)
              = map (fun spare => (hdl, Vdev_Path spare))
                    (List.filter redundant_spare vdevs)).
Proof.
  intros r. subst r.
  split; [apply CleanupSpares_returns|].
  destruct (CleanupSpares_sound e w) as [|hdl zpl vdevs walk Hwalk Hdetach];
    [left; reflexivity|].
  right. exists hdl, zpl, vdevs, walk. repeat split; assumption.
Qed.

(** X13.  The pool-event handler reclaims spares only on a
    resilver-finished event for which the registry has no case: any pool
    list query or detach command in its trace implies both. *)
Theorem spares_reclaimed_only_after_resilver (e : Event) (w : World) :
  let r := ZfsEvent.ProcessPoolEvent env e w in
  (exists pool zpl, In (O_ZpoolList_ByGUID pool zpl) (trace r))
  \/ (exists hdl path, In (O_zpool_vdev_detach hdl path) (trace r)) ->
  Value e "type" = "misc.fs.zfs.resilver_finish"
  /\ In (O_CaseFile_Find (ZfsEvent.PoolGUID e) (ZfsEvent.VdevGUID e) None)
        (trace r).
Proof.
  intros r. subst r.
  runs_pool_event e w; string_tests;
    intros [(? & ? & Hin) | (? & ? & Hin)];
    in_trace; in_walk; try discriminate; try congruence.
  all: split; [assumption | cbn; auto].
Qed.


(** X15.  On a pool-destroyed event the handler logs the event and asks
    the registry to re-evaluate every case of the pool, and that is all: no
    case lookup, no reclaim, no rescan. *)
Theorem pool_destroy_reevaluates_pool_cases (e : Event) (w : World) :
  Value e "type" = "misc.fs.zfs.pool_destroy" ->
  let r := ZfsEvent.ProcessPoolEvent env e w in
  value r = inr tt
  /\ trace r
     = [O_Event_Log e LOG_INFO;
        O_CaseFile_ReEvaluateByGuid (ZfsEvent.PoolGUID e) e].
Proof.
  intros Hty r. subst r.
  runs_pool_event e w; string_tests;
    try (rewrite Hty in *; discriminate); try congruence.
  split; reflexivity.
Qed.


Lemma ProcessPoolEvent_obs (e : Event) (w : World) :
  forall o,
    In o (trace (ZfsEvent.ProcessPoolEvent env e w)) ->
    is_pool_handler_obs o = true.
Proof.
  runs_pool_event e w; intros o Hin; in_trace; subst; try reflexivity.
  all: match goal with
       | Hw : forall o, In o ?walk -> is_reclaim_obs o = true,
         Hin : In ?x ?walk |- _ =>
           apply Hw in Hin; destruct x; try discriminate Hin; reflexivity
       end.
Qed.

Opaque ZfsEvent.ProcessPoolEvent.

(** In a run [E] of [Process], replace the call of the pool-event handler
    by what is known of its runs. *)
Ltac pool_run E :=
  match type of E with
  | context [ZfsEvent.ProcessPoolEvent env ?ev ?w0] =>
      let Hret := fresh "Hret" in
      let Hobs := fresh "Hobs" in
      pose proof (ProcessPoolEvent_returns ev w0) as Hret;
      pose proof (ProcessPoolEvent_obs ev w0) as Hobs;
      destruct (ZfsEvent.ProcessPoolEvent env ev w0) as [? ? ?];
      cbn in Hret, Hobs; subst; cbn in E
  end.

Ltac runs_ZfsEvent_Process e w :=
  let E := fresh "E" in
  destruct (ZfsEvent.Process env e w) as [? ? ?] eqn:E;
  unfold ZfsEvent.Process in E;
  cbn in E; name_answers E;
  repeat (first [pool_run E | branch E]);
  injection E as <- <- <-.

(** Membership in the trace of the pool-event handler. *)
Ltac in_pool_trace :=
  repeat match goal with
  | Hobs : forall o, In o ?tr -> is_pool_handler_obs o = true,
    Hin : In ?x ?tr |- _ =>
      apply Hobs in Hin; cbn in Hin; try discriminate Hin
  end.


Lemma vdev_scoped_intro (e : Event) :
  negb (Contains e "class") && negb (Contains e "type") = false ->
  find_is_0 (Value e "type") "misc.fs.zfs." = false ->
  vdev_scoped e = true.
Proof.
  intros Hct Hpre. unfold vdev_scoped. rewrite Hpre.
  rewrite <- negb_orb in Hct. apply negb_false_iff in Hct. rewrite Hct.
  reflexivity.
Qed.

(** X18.  [Process] retains an event only if the event is vdev-scoped,
    carries both guid tags, has no case in the registry and is not of the
    no-replicas class; and a retained event has been logged: the trace ends
    with the event's log line and an informational "%s" line. *)
Theorem retained_only_when_unresolved (e : Event) (w : World) :
  let r := ZfsEvent.Process env e w in
  value r = inr true ->
  vdev_scoped e = true
  /\ Contains e "pool_guid" = true
  /\ Contains e "vdev_guid" = true
  /\ find_is_0 (Value e "class") "fs.zfs.vdev.no_replicas" = false
  /\ In (O_CaseFile_Find (ZfsEvent.PoolGUID e) (ZfsEvent.VdevGUID e) None)
        (trace r)
  /\ exists msg pre,
       trace r
       = (pre ++ [O_Event_Log e LOG_INFO; O_syslog LOG_INFO "%s" [msg]])%list.
Proof.
  intros r. subst r.
  runs_ZfsEvent_Process e w; intros Hret; try discriminate.
  all: match goal with
       | Hg : negb (Contains _ "pool_guid") || negb (Contains _ "vdev_guid") = false
         |- _ =>
           apply orb_false_iff in Hg as [Hp Hv];
           apply negb_false_iff in Hp; apply negb_false_iff in Hv
       end.
  all: split; [apply vdev_scoped_intro; assumption|].
  all: do 3 (split; [first [assumption | reflexivity]|]).
  all: split; [cbn; auto|].
  all: cbn; eexists; suffix.
Qed.

(** X19.  Whatever the event, [Process] creates a case only for a device it
    resolved: the registry had no case for the event's guids, the pool list
    was not empty, the device was found in the tree of the first pool
    handle, and the case is created for exactly that device.  The new case
    is at once asked to evaluate the event, and the event is retained
    exactly when it answers unconsumed. *)
Theorem case_created_only_for_resolved_device
    (e : Event) (w : World) (vdev : Vdev) (cf : CaseFile) :
  let r := ZfsEvent.Process env e w in
  In (O_CaseFile_Create vdev cf) (trace r) ->
  exists hdl zpl config consumed,
    In (O_CaseFile_Find (ZfsEvent.PoolGUID e) (ZfsEvent.VdevGUID e) None)
       (trace r)
    /\ In (O_ZpoolList_ByGUID (ZfsEvent.PoolGUID e) (hdl :: zpl)) (trace r)
    /\ In (O_VdevIterator_Find hdl (ZfsEvent.VdevGUID e) (Some config)) (trace r)
    /\ vdev = Vdev_of_pool hdl config
    /\ In (O_CaseFile_ReEvaluate cf e consumed) (trace r)
    /\ value r = inr (negb consumed).
Proof.
  intros r. subst r.
  runs_ZfsEvent_Process e w; intros Hcreate;
    in_trace; in_pool_trace; try discriminate.
  all: match goal with
       | |- context [O_ZpoolList_ByGUID _ (?hdl :: ?zpl) :: _] =>
           match goal with
           | |- context [O_VdevIterator_Find _ _ (Some ?config) :: _] =>
               match goal with
               | |- context [O_CaseFile_ReEvaluate _ _ ?c :: _] =>
                   exists hdl, zpl, config, c
               end
           end
       end.
  all: repeat match goal with
       | Hb : Bool.eqb _ false = true |- _ => apply eqb_prop in Hb; subst
       | Hb : Bool.eqb ?a false = false |- _ =>
           destruct a; [clear Hb | discriminate Hb]
       end.
  all: cbn; repeat split; auto 10.
Qed.

(** X20.  An event whose type lies in the storage-subsystem namespace is
    handed to the pool-event handler and never retained: after the replay
    and the re-evaluation of the pool's cases that a config-sync event
    causes, and after nothing otherwise, the run of [Process] is the run of
    [ProcessPoolEvent] on the event from the world reached, and [Process]
    returns false.  No device is resolved and no case is created. *)
Theorem pool_namespace_event_never_retained (e : Event) (w : World) :
  find_is_0 (Value e "type") "misc.fs.zfs." = true ->
  let r := ZfsEvent.Process env e w in
  let sync := find_is_0 (Value e "type") "misc.fs.zfs.config_sync" in
  let replayed :=
    next env (O_CaseFile_ReEvaluateByGuid (ZfsEvent.PoolGUID e) e)
      (next env (O_ReplayUnconsumedEvents true) w) in
  let handler :=
    ZfsEvent.ProcessPoolEvent env e (if sync then replayed else w) in
  value r = inr false
  /\ trace r
     = ((if sync
         then [O_ReplayUnconsumedEvents true;
               O_CaseFile_ReEvaluateByGuid (ZfsEvent.PoolGUID e) e]
         else [])
        ++ trace handler)%list
  /\ world r = world handler
  /\ (forall vdev cf, ~ In (O_CaseFile_Create vdev cf) (trace r))
  /\ (forall hdl guid config,
        ~ In (O_VdevIterator_Find hdl guid config) (trace r))
  /\ (forall o, In o (trace r) ->
        is_pool_handler_obs o = true \/ o = O_ReplayUnconsumedEvents true).
Proof.
  intros Hprefix r sync replayed handler. subst r sync replayed handler.
  assert (Contains e "type" = true) as Htype
    by (apply (find_is_0_Contains e "type" "misc.fs.zfs.");
        [discriminate | exact Hprefix]).
  assert (negb (Contains e "class") && negb (Contains e "type") = false) as Hct
    by (rewrite Htype; apply andb_false_r).
  assert (value (ZfsEvent.Process env e w) = inr false
          /\ (forall vdev cf,
                ~ In (O_CaseFile_Create vdev cf) (trace (ZfsEvent.Process env e w)))
          /\ (forall hdl guid config,
                ~ In (O_VdevIterator_Find hdl guid config)
                     (trace (ZfsEvent.Process env e w)))
          /\ (forall o, In o (trace (ZfsEvent.Process env e w)) ->
                is_pool_handler_obs o = true \/ o = O_ReplayUnconsumedEvents true))
    as (Hvalue & Hcreate & Hresolve & Hkinds).
  { runs_ZfsEvent_Process e w; try congruence.
    all: split; [reflexivity|].
    all: repeat split; unfold not; intros; in_trace; in_pool_trace;
      subst; try discriminate; cbn; auto. }
  split; [exact Hvalue|].
  split; [|split; [|split; [exact Hcreate|split; [exact Hresolve|exact Hkinds]]]].
  - clear Hvalue Hcreate Hresolve Hkinds.
    unfold ZfsEvent.Process. rewrite Hct, Hprefix.
    destruct (find_is_0 (Value e "type") "misc.fs.zfs.config_sync"); cbn;
      match goal with
      | |- context [ZfsEvent.ProcessPoolEvent env e ?w0] =>
          pose proof (ProcessPoolEvent_returns e w0) as Hret;
          destruct (ZfsEvent.ProcessPoolEvent env e w0) as [v w' tr]
      end;
      cbn in Hret; subst v; cbn; rewrite ?app_nil_r; reflexivity.
  - clear Hvalue Hcreate Hresolve Hkinds.
    unfold ZfsEvent.Process. rewrite Hct, Hprefix.
    destruct (find_is_0 (Value e "type") "misc.fs.zfs.config_sync"); cbn;
      match goal with
      | |- context [ZfsEvent.ProcessPoolEvent env e ?w0] =>
          pose proof (ProcessPoolEvent_returns e w0) as Hret;
          destruct (ZfsEvent.ProcessPoolEvent env e w0) as [v w' tr]
      end;
      cbn in Hret; subst v; cbn; reflexivity.
Qed.

(** X21.  An event whose type lies outside the storage-subsystem namespace
    never causes a replay of deferred events, a bulk re-evaluation, a
    system rescan or a detach. *)
Theorem vdev_event_has_no_pool_wide_effect (e : Event) (w : World) :
  find_is_0 (Value e "type") "misc.fs.zfs." = false ->
  let r := ZfsEvent.Process env e w in
  (forall discard, ~ In (O_ReplayUnconsumedEvents discard) (trace r))
  /\ (forall pool ev, ~ In (O_CaseFile_ReEvaluateByGuid pool ev) (trace r))
  /\ ~ In O_RequestSystemRescan (trace r)
  /\ (forall hdl path, ~ In (O_zpool_vdev_detach hdl path) (trace r)).
Proof.
  intros Hprefix r. subst r.
  assert (find_is_0 (Value e "type") "misc.fs.zfs.config_sync" = false) as Hsync.
  { destruct (find_is_0 (Value e "type") "misc.fs.zfs.config_sync") eqn:Hcs;
      [|reflexivity].
    apply (find_is_0_trans _ "misc.fs.zfs.") in Hcs; [congruence|reflexivity]. }
  runs_ZfsEvent_Process e w; try congruence.
  all: repeat split; unfold not; intros; in_trace.
Qed.

Transparent ZfsEvent.CleanupSpares ZfsEvent.ProcessPoolEvent.
End ZfsEventFacts.

(** ** The router on the concrete world *)

Section Examples.
Import Testbed.

(** End-to-end, device arrival: the label shows pool 42, vdev 7, healthy, the
    device is in use and a case is open for (42, 7): the case is found by
    identity and asked to re-evaluate; the event is not retained. *)
Example online_by_label_42_7 :
  value (DevfsEvent.Process env create_da1 returning_42_7) = inr false
  /\ trace (DevfsEvent.Process env create_da1 returning_42_7)
     = [O_Event_Log create_da1 LOG_INFO;
        O_open "/dev/da1" O_RDONLY 3;
        O_zpool_in_use 3 0 (Some "tank") B_TRUE;
        O_free "tank";
        O_zpool_read_label 3 0 (Some 2%N);
        O_PhysicalPath create_da1 true slot1;
        O_close 3;
        interrogating "/dev/da1";
        O_CaseFile_Find 42 7 (Some case_42_7);
        O_CaseFile_ReEvaluate_dev case_42_7 "/dev/da1" slot1 (Some 2%nat) true;
        O_nvlist_free 2%N].
Proof. split; vm_compute; reflexivity. Qed.

(** A healthy, unlabelled whole disk in a slot with no open case: the case
    lookup by physical path is the last thing done. *)
Example arrival_in_free_slot :
  trace (DevfsEvent.Process env create_da1 quiet)
  = [O_Event_Log create_da1 LOG_INFO;
     O_open "/dev/da1" O_RDONLY 3;
     O_zpool_in_use 3 0 None B_FALSE;
     O_zpool_read_label 3 0 None;
     O_PhysicalPath create_da1 true slot1;
     O_close 3;
     O_CaseFile_Find_physPath slot1 None].
Proof. vm_compute; reflexivity. Qed.

(** Spare reclaim: among S (2), F (3), H (4) the spare S is detached; among
    S' (6), F' (7) the spare S' is not. *)
Example spare_reclaim :
  detach_calls (trace (ZfsEvent.TryDetach env 2%nat 1%N quiet)) = [(1%N, "/dev/da2")]
  /\ detach_calls (trace (ZfsEvent.TryDetach env 6%nat 1%N quiet)) = []
  /\ detach_calls (trace (ZfsEvent.CleanupSpares env config_sync_42 quiet))
     = [(1%N, "/dev/da2")].
Proof. repeat split; vm_compute; reflexivity. Qed.

(** End-to-end, no replicas: logged, discarded, no case created. *)
Example no_replicas_9_3_discarded :
  value (ZfsEvent.Process env no_replicas_9_3 quiet) = inr false
  /\ trace (ZfsEvent.Process env no_replicas_9_3 quiet)
     = [O_CaseFile_Find 9 3 None;
        O_Event_Log no_replicas_9_3 LOG_INFO;
        O_syslog LOG_INFO "%s" ["No replicas available for pool 9, ignoring"]].
Proof. split; vm_compute; reflexivity. Qed.

(** Replaying an event for a pool that stays invisible retains it both
    times and creates no case. *)
Example unresolved_event_retained_twice :
  let first := ZfsEvent.Process env checksum_42_8 no_pools in
  let second := ZfsEvent.Process env checksum_42_8 (world first) in
  value first = inr true /\ value second = inr true
  /\ s_cases (world second) = [].
Proof. repeat split; vm_compute; reflexivity. Qed.

(** With the pool visible, the case is created for the device found in the
    tree (device 3, guid 8) and enters the registry. *)
Example case_created_for_42_8 :
  value (ZfsEvent.Process env checksum_42_8 quiet) = inr false
  /\ s_cases (world (ZfsEvent.Process env checksum_42_8 quiet))
     = [(42%N, 8%N, mkCaseFile 0 "42" "8" VDEV_STATE_FAULTED)].
Proof. split; vm_compute; reflexivity. Qed.

(** A vdev removal of a device tracked as faulted requests no rescan. *)
Example vdev_remove_of_tracked_device :
  ~ In O_RequestSystemRescan
       (trace (ZfsEvent.ProcessPoolEvent env vdev_remove_42_8 degraded_in_slot1)).
Proof. vm_compute. intuition discriminate. Qed.



Lemma config_sync_replays_then_reevaluates_witness :
  find_is_0 (Value config_sync_42 "type") "misc.fs.zfs.config_sync" = true
  /\ value (ZfsEvent.Process env config_sync_42 quiet) = inr false
  /\ exists rest,
       trace (ZfsEvent.Process env config_sync_42 quiet)
       = O_ReplayUnconsumedEvents true
         :: O_CaseFile_ReEvaluateByGuid 42 config_sync_42 :: rest.
Proof.
  destruct (config_sync_replays_then_reevaluates env config_sync_42 quiet eq_refl)
    as (Hv & Ht & _).
  split; [reflexivity|].
  split; [exact Hv|].
  eexists. exact Ht.
Defined.

Lemma TryDetach_detaches_redundant_spares_witness :
  In (O_zpool_vdev_detach 1%N "/dev/da2")
     (trace (ZfsEvent.TryDetach env 2%nat 1%N quiet))
  /\ value (ZfsEvent.TryDetach env 2%nat 1%N quiet) = inr false
  /\ detach_calls
       (trace (ZfsEvent.Each (ZfsEvent.TryDetach env) 1%N devices quiet))
     = [(1%N, "/dev/da2")].
Proof.
  destruct (TryDetach_detaches_redundant_spares env 2%nat 1%N devices quiet)
    as (Hv & Hiff & _ & Hwalk).
  split; [|split; [exact Hv|exact Hwalk]].
  apply Hiff. split; [reflexivity|].
  exists 4%nat.
  split; [vm_compute; auto|].
  split; reflexivity.
Defined.

Lemma DevfsEvent_Process_never_retained_witness :
  Value destroy_da1 "type" <> "CREATE"
  /\ value (DevfsEvent.Process env destroy_da1 degraded_in_slot1) = inr false
  /\ trace (DevfsEvent.Process env destroy_da1 degraded_in_slot1) = [].
Proof.
  assert (Value destroy_da1 "type" <> "CREATE") as Htype
    by (vm_compute; discriminate).
  destruct (DevfsEvent_Process_never_retained env destroy_da1 degraded_in_slot1)
    as (Hv & Hquiet).
  split; [exact Htype|].
  split; [exact Hv|].
  apply Hquiet. left. exact Htype.
Defined.

Lemma event_without_guid_tags_discarded_witness :
  find_is_0 (Value checksum_without_vdev "type") "misc.fs.zfs." = false
  /\ Contains checksum_without_vdev "vdev_guid" = false
  /\ value (ZfsEvent.Process env checksum_without_vdev no_pools) = inr false.
Proof.
  split; [reflexivity|].
  split; [reflexivity|].
  apply (event_without_guid_tags_discarded env checksum_without_vdev no_pools
           eq_refl (or_intror eq_refl)).
Defined.

Lemma ReadLabel_catches_parse_error_witness :
  In (O_zpool_read_label 3 0 (Some 0%N))
     (trace (DevfsEvent.ReadLabel env 3 unparsable))
  /\ Vdev_of_label 0%N = inl (mkZfsdException "Unable to extract vdev GUID")
  /\ exists inUse devName,
       value (DevfsEvent.ReadLabel env 3 unparsable) = inr (None, inUse, false)
       /\ exists pre,
            trace (DevfsEvent.ReadLabel env 3 unparsable)
            = (pre ++ [O_fdevname 3 devName;
                       O_Exception_Log
                         (mkZfsdException
                            (("DevfsEvent::ReadLabel: "
                              ++ (_PATH_DEV ++ devName) ++ ": ")
                             ++ "Unable to extract vdev GUID"))])%list.
Proof.
  assert (In (O_zpool_read_label 3 0 (Some 0%N))
             (trace (DevfsEvent.ReadLabel env 3 unparsable)))
    as Hread by (vm_compute; auto 12).
  split; [exact Hread|].
  split; [reflexivity|].
  exact (ReadLabel_catches_parse_error env 3 unparsable 0%N
           (mkZfsdException "Unable to extract vdev GUID") Hread eq_refl).
Defined.



Lemma degraded_only_with_label_witness :
  In (O_syslog LOG_INFO degraded_fmt ["da1"])
     (trace (DevfsEvent.Process env create_da1 degraded_in_slot1))
  /\ exists fd poolName label vdev,
       In (O_zpool_in_use fd 0 poolName B_FALSE)
          (trace (DevfsEvent.Process env create_da1 degraded_in_slot1))
       /\ In (O_zpool_read_label fd 0 (Some label))
             (trace (DevfsEvent.Process env create_da1 degraded_in_slot1))
       /\ Vdev_of_label label = inr vdev
       /\ Vdev_State vdev <> VDEV_STATE_HEALTHY.
Proof.
  assert (In (O_syslog LOG_INFO degraded_fmt ["da1"])
             (trace (DevfsEvent.Process env create_da1 degraded_in_slot1)))
    as Hlog by (vm_compute; auto 12).
  split; [exact Hlog|].
  exact (proj2 (degraded_only_with_label env 3 create_da1 degraded_in_slot1)
           ["da1"] Hlog).
Defined.

(** The further properties on the concrete world. *)

Lemma OnlineByLabel_parse_error_witness :
  Vdev_of_label 0%N = inl (mkZfsdException "Unable to extract vdev GUID")
  /\ value (DevfsEvent.OnlineByLabel env "/dev/da1" slot1 0%N quiet) = inr false.
Proof.
  split; [reflexivity|].
  apply (OnlineByLabel_parse_error env "/dev/da1" slot1 0%N
           (mkZfsdException "Unable to extract vdev GUID") quiet eq_refl).
Defined.

Lemma ReadLabel_in_use_flag_witness :
  In (O_zpool_in_use 3 0 None B_TRUE)
     (trace (DevfsEvent.ReadLabel env 3 unparsable))
  /\ exists devLabel degraded,
       value (DevfsEvent.ReadLabel env 3 unparsable)
       = inr (devLabel, boolean_eqb B_TRUE B_TRUE, degraded).
Proof.
  assert (In (O_zpool_in_use 3 0 None B_TRUE)
             (trace (DevfsEvent.ReadLabel env 3 unparsable)))
    as Hin by (vm_compute; auto 12).
  split; [exact Hin|].
  exact (proj1 (ReadLabel_in_use_flag env 3 unparsable 0 None B_TRUE Hin) eq_refl).
Defined.

Lemma ReadLabel_label_and_state_witness :
  value (DevfsEvent.ReadLabel env 3 degraded_in_slot1) = inr (Some 3%N, false, true)
  /\ exists vdev,
       In (O_zpool_read_label 3 0 (Some 3%N))
          (trace (DevfsEvent.ReadLabel env 3 degraded_in_slot1))
       /\ Vdev_of_label 3%N = inr vdev
       /\ (true = true <-> Vdev_State vdev <> VDEV_STATE_HEALTHY)
       /\ (forall exp,
             ~ In (O_Exception_Log exp)
                  (trace (DevfsEvent.ReadLabel env 3 degraded_in_slot1))).
Proof.
  split; [reflexivity|].
  exact (ReadLabel_label_and_state env 3 degraded_in_slot1 3%N false true eq_refl).
Defined.


Lemma physical_path_match_only_as_fallback_witness :
  In (O_CaseFile_Find_physPath slot1 (Some case_42_8))
     (trace (DevfsEvent.Process env create_da1 replacement_in_slot1))
  /\ exists consumed,
       In (O_CaseFile_ReEvaluate_dev case_42_8 (snd (DevPath create_da1))
             slot1 None consumed)
          (trace (DevfsEvent.Process env create_da1 replacement_in_slot1)).
Proof.
  assert (In (O_CaseFile_Find_physPath slot1 (Some case_42_8))
             (trace (DevfsEvent.Process env create_da1 replacement_in_slot1)))
    as Hfind by (vm_compute; auto 12).
  destruct (physical_path_match_only_as_fallback env create_da1
              replacement_in_slot1 slot1 (Some case_42_8) Hfind)
    as (_ & _ & _ & _ & Hre & _).
  split; [exact Hfind|].
  exact (Hre case_42_8 eq_refl).
Defined.



Lemma spares_reclaimed_only_after_resilver_witness :
  (exists hdl path,
      In (O_zpool_vdev_detach hdl path)
         (trace (ZfsEvent.ProcessPoolEvent env resilver_finish_42 quiet)))
  /\ Value resilver_finish_42 "type" = "misc.fs.zfs.resilver_finish".
Proof.
  assert (exists hdl path,
             In (O_zpool_vdev_detach hdl path)
                (trace (ZfsEvent.ProcessPoolEvent env resilver_finish_42 quiet)))
    as Hdetach by (exists 1%N, "/dev/da2"; vm_compute; auto 12).
  split; [exact Hdetach|].
  exact (proj1 (spares_reclaimed_only_after_resilver env resilver_finish_42
                  quiet (or_intror Hdetach))).
Defined.


Lemma pool_destroy_reevaluates_pool_cases_witness :
  Value pool_destroy_42 "type" = "misc.fs.zfs.pool_destroy"
  /\ trace (ZfsEvent.ProcessPoolEvent env pool_destroy_42 degraded_in_slot1)
     = [O_Event_Log pool_destroy_42 LOG_INFO;
        O_CaseFile_ReEvaluateByGuid (ZfsEvent.PoolGUID pool_destroy_42)
          pool_destroy_42].
Proof.
  split; [reflexivity|].
  exact (proj2 (pool_destroy_reevaluates_pool_cases env pool_destroy_42
                  degraded_in_slot1 eq_refl)).
Defined.


Lemma retained_only_when_unresolved_witness :
  value (ZfsEvent.Process env checksum_42_8 no_pools) = inr true
  /\ vdev_scoped checksum_42_8 = true
  /\ In (O_CaseFile_Find (ZfsEvent.PoolGUID checksum_42_8)
           (ZfsEvent.VdevGUID checksum_42_8) None)
        (trace (ZfsEvent.Process env checksum_42_8 no_pools)).
Proof.
  destruct (retained_only_when_unresolved env checksum_42_8 no_pools eq_refl)
    as (Hscoped & _ & _ & _ & Hfind & _).
  split; [reflexivity|].
  split; [exact Hscoped|exact Hfind].
Defined.

Lemma case_created_only_for_resolved_device_witness :
  In (O_CaseFile_Create 3%nat (mkCaseFile 0 "42" "8" VDEV_STATE_FAULTED))
     (trace (ZfsEvent.Process env checksum_42_8 quiet))
  /\ exists hdl zpl config consumed,
       In (O_CaseFile_Find (ZfsEvent.PoolGUID checksum_42_8)
             (ZfsEvent.VdevGUID checksum_42_8) None)
          (trace (ZfsEvent.Process env checksum_42_8 quiet))
       /\ In (O_ZpoolList_ByGUID (ZfsEvent.PoolGUID checksum_42_8) (hdl :: zpl))
             (trace (ZfsEvent.Process env checksum_42_8 quiet))
       /\ In (O_VdevIterator_Find hdl (ZfsEvent.VdevGUID checksum_42_8)
                (Some config))
             (trace (ZfsEvent.Process env checksum_42_8 quiet))
       /\ 3%nat = Vdev_of_pool hdl config
       /\ In (O_CaseFile_ReEvaluate (mkCaseFile 0 "42" "8" VDEV_STATE_FAULTED)
                checksum_42_8 consumed)
             (trace (ZfsEvent.Process env checksum_42_8 quiet))
       /\ value (ZfsEvent.Process env checksum_42_8 quiet) = inr (negb consumed).
Proof.
  assert (In (O_CaseFile_Create 3%nat (mkCaseFile 0 "42" "8" VDEV_STATE_FAULTED))
             (trace (ZfsEvent.Process env checksum_42_8 quiet)))
    as Hcreate by (vm_compute; auto 12).
  split; [exact Hcreate|].
  exact (case_created_only_for_resolved_device env checksum_42_8 quiet
           3%nat (mkCaseFile 0 "42" "8" VDEV_STATE_FAULTED) Hcreate).
Defined.

Lemma pool_namespace_event_never_retained_witness :
  find_is_0 (Value vdev_remove_42_8 "type") "misc.fs.zfs." = true
  /\ value (ZfsEvent.Process env vdev_remove_42_8 no_pools) = inr false
  /\ trace (ZfsEvent.Process env vdev_remove_42_8 no_pools)
     = trace (ZfsEvent.ProcessPoolEvent env vdev_remove_42_8 no_pools)
  /\ trace (ZfsEvent.ProcessPoolEvent env vdev_remove_42_8 no_pools)
     = [O_CaseFile_Find 42 8 None;
        O_Event_Log vdev_remove_42_8 LOG_INFO;
        O_RequestSystemRescan]
  /\ find_is_0 (Value resilver_finish_42 "type") "misc.fs.zfs." = true
  /\ trace (ZfsEvent.Process env resilver_finish_42 quiet)
     = trace (ZfsEvent.ProcessPoolEvent env resilver_finish_42 quiet)
  /\ In (O_zpool_vdev_detach 1%N "/dev/da2")
        (trace (ZfsEvent.ProcessPoolEvent env resilver_finish_42 quiet)).
Proof.
  destruct (pool_namespace_event_never_retained env vdev_remove_42_8
              no_pools eq_refl) as (Hvalue & Htrace & _).
  destruct (pool_namespace_event_never_retained env resilver_finish_42
              quiet eq_refl) as (_ & Htrace' & _).
  split; [reflexivity|].
  split; [exact Hvalue|].
  split; [exact Htrace|].
  split; [vm_compute; reflexivity|].
  split; [reflexivity|].
  split; [exact Htrace'|].
  vm_compute; auto 12.
Defined.

Lemma vdev_event_has_no_pool_wide_effect_witness :
  find_is_0 (Value checksum_42_8 "type") "misc.fs.zfs." = false
  /\ ~ In O_RequestSystemRescan
          (trace (ZfsEvent.Process env checksum_42_8 quiet)).
Proof.
  split; [reflexivity|].
  destruct (vdev_event_has_no_pool_wide_effect env checksum_42_8 quiet eq_refl)
    as (_ & _ & Hrescan & _).
  exact Hrescan.
Defined.

End Examples.
